(** * Product Service REST API: the route handlers of [service/routes.py]

    The handlers are embedded as functions in a small state-and-exception
    monad over the product table.  Flask's [request] is an explicit record,
    [abort] raises an [HTTPException], and a Python [try ... except] is the
    combinator [try_except].  What the handlers take from Python and
    Werkzeug without this file defining it ([str.upper], [repr], the names
    of the status codes) is a parameter, the [Runtime].  Logging calls have
    no effect on a response and are left out, and so are the two routes
    without a product in them, [/health] and [/]. *)

From Stdlib Require Import ZArith String Ascii List Lia.
From stdpp Require Import base option list gmap strings pretty.

#[local] Set Warnings "-register-all".

Local Open Scope Z_scope.
Local Open Scope string_scope.

(** ** Python values *)

(** Upper and lower case of the ASCII letters. *)
Definition ascii_upper (c : ascii) : ascii :=
  let n := N_of_ascii c in
  if ((97 <=? n) && (n <=? 122))%N then ascii_of_N (n - 32) else c.

Definition ascii_lower (c : ascii) : ascii :=
  let n := N_of_ascii c in
  if ((65 <=? n) && (n <=? 90))%N then ascii_of_N (n + 32) else c.

(** [str.upper] on a string of ASCII characters.  The handlers do not use
    it: they take [str.upper] from the [Runtime] below; it serves to run them
    on ASCII values. *)
Fixpoint upper_ascii (s : string) : string :=
  match s with
  | EmptyString => EmptyString
  | String c r => String (ascii_upper c) (upper_ascii r)
  end.

(** [str.lower], on the ASCII letters of a string.  The one use of it,
    [is_available], compares the result with "true", "1" and "t", into
    whose characters no character beyond A-Z is lowered. *)
Fixpoint lower (s : string) : string :=
  match s with
  | EmptyString => EmptyString
  | String c r => String (ascii_lower c) (lower r)
  end.

(** Truth value of an [Optional[str]], as in [if name:]: [None] and the
    empty string are false. *)
Definition truthy (v : option string) : bool :=
  match v with
  | Some s => negb (String.eqb s "")
  | None => false
  end.

(** [x in (a, b, c)] on strings. *)
Definition str_in (x : string) (l : list string) : bool :=
  existsb (String.eqb x) l.

(** [available.lower() in ("true", "1", "t")], the conversion of the
    [available] query parameter to a boolean in [list_products]. *)
Definition is_available (available : string) : bool :=
  str_in (lower available) ["true"; "1"; "t"].

(** A [decimal.Decimal]: [coefficient * 10 ^ exponent]. *)
Record Decimal := mkDecimal { coefficient : Z; exponent : Z }.

(** A JSON document, as [request.get_json()] returns it and [jsonify]
    takes it. *)
Inductive json :=
| JNull
| JBool (b : bool)
| JNum (d : Decimal)
| JStr (s : string)
| JArr (l : list json)
| JObj (items : list (string * json)).

Definition JInt (n : Z) : json := JNum (mkDecimal n 0).

(** [d.get(key)] on the items of a dict. *)
Fixpoint dict_get (items : list (string * json)) (key : string) : option json :=
  match items with
  | [] => None
  | (k, v) :: rest => if String.eqb k key then Some v else dict_get rest key
  end.

(** What the handlers use of Python and Werkzeug and this development does
    not define: the handlers are verified for every such runtime, Python's
    the first. *)
Class Runtime := {
  (** [str.upper], on all of Unicode *)
  upper : string -> string;
  (** [repr] of a [str] *)
  repr : string -> string;
  (** the name of a status code, [HTTP_STATUS_CODES.get(code, "Unknown
      Error")] *)
  status_name : Z -> string
}.

(** Python exceptions the handlers raise or catch: Werkzeug's
    [HTTPException], the [DataValidationError] of the models, [KeyError]
    with its key, and any other exception, given by its [str]. *)
Inductive exn :=
| HTTPException (code : Z) (description : string)
| DataValidationError (msg : string)
| KeyError (key : string)
| Exception (msg : string).

(** [str(error)]: "<code> <name>: <description>" for an [HTTPException],
    the [repr] of the key for a [KeyError], the message otherwise. *)
Definition str_exn {Py : Runtime} (e : exn) : string :=
  match e with
  | HTTPException code d => pretty code +:+ " " +:+ status_name code +:+ ": " +:+ d
  | DataValidationError m => m
  | KeyError k => repr k
  | Exception m => m
  end.

(** [werkzeug.exceptions.BadRequest()], which [request.get_json()] raises
    on a body that is not JSON. *)
Definition BadRequest : exn :=
  HTTPException 400
    "The browser (or proxy) sent a request that this server could not understand.".

Inductive result (A : Type) :=
| Ok (a : A)
| Raise (e : exn).
Arguments Ok {A} a.
Arguments Raise {A} e.

(** ** service.common.status *)

Definition HTTP_200_OK : Z := 200.
Definition HTTP_201_CREATED : Z := 201.
Definition HTTP_204_NO_CONTENT : Z := 204.
Definition HTTP_400_BAD_REQUEST : Z := 400.
Definition HTTP_404_NOT_FOUND : Z := 404.
Definition HTTP_415_UNSUPPORTED_MEDIA_TYPE : Z := 415.
Definition HTTP_500_INTERNAL_SERVER_ERROR : Z := 500.

(** ** Flask's request and response *)

Record request := mkRequest {
  (** [request.headers["Content-Type"]], [None] when the header is absent *)
  content_type : option string;
  (** [request.args]: the query parameters in the order received *)
  args : list (string * string);
  (** [request.get_json()]: the body parsed as JSON, or the exception the
      call raises ([BadRequest] when the body is not JSON) *)
  get_json : result json;
  (** scheme and host of the request, used by [url_for(_external=True)] *)
  host_url : string
}.

(** [request.args.get(key)]: the first value under [key], or [None]. *)
Fixpoint args_get (a : list (string * string)) (key : string) : option string :=
  match a with
  | [] => None
  | (k, v) :: rest => if String.eqb k key then Some v else args_get rest key
  end.

(** What a view function returns: body, status and headers. *)
Record response := mkResponse {
  body : json;
  status : Z;
  headers : list (string * string)
}.

(** The status code the client sees: that of the returned response, the
    code of an [HTTPException], and 500 for any other exception that
    leaves the view function. *)
Definition status_code (r : result response) : Z :=
  match r with
  | Ok resp => status resp
  | Raise (HTTPException code _) => code
  | Raise _ => HTTP_500_INTERNAL_SERVER_ERROR
  end.

(** [url_for("get_products", product_id=..., _external=True)] for the rule
    [/products/<int:product_id>]. *)
Definition url_for_get_products (req : request) (product_id : Z) : string :=
  host_url req +:+ "products/" +:+ pretty product_id.

(** ** The monad of a request: the product table threaded through, and a
    value or a raised exception. *)

Definition M (S A : Type) : Type := S -> result A * S.

Definition ret {S A} (a : A) : M S A := fun st => (Ok a, st).

Definition raise {S A} (e : exn) : M S A := fun st => (Raise e, st).

Definition bind {S A B} (m : M S A) (k : A -> M S B) : M S B :=
  fun st =>
    match m st with
    | (Ok a, st') => k a st'
    | (Raise e, st') => (Raise e, st')
    end.

(** [try: m  except ...: handler]: [handler e] is [None] when no [except]
    clause matches [e], and the exception propagates. *)
Definition try_except {S A} (m : M S A) (handler : exn -> option (M S A)) : M S A :=
  fun st =>
    match m st with
    | (Ok a, st') => (Ok a, st')
    | (Raise e, st') =>
        match handler e with
        | Some h => h st'
        | None => (Raise e, st')
        end
    end.

(** A pure computation that may raise. *)
Definition lift {S A} (r : result A) : M S A := fun st => (r, st).

(** A read of the table. *)
Definition gets {S A} (f : S -> A) : M S A := fun st => (Ok (f st), st).

(** [flask.abort(code, description)] *)
Definition abort {S A} (code : Z) (description : string) : M S A :=
  raise (HTTPException code description).

Declare Scope py_scope.
Delimit Scope py_scope with py.
Notation "x <- m ;; k" := (bind m (fun x => k))
  (at level 100, m at next level, right associativity) : py_scope.
Notation "m ;;; k" := (bind m (fun _ => k))
  (at level 100, right associativity) : py_scope.
Local Open Scope py_scope.

(** ** service.models *)

(** A Python [Enum] class: its members in definition order and the name of
    each.  [service/models.py], which declares [Category], is not among the
    sources, so the handlers are verified for any such enumeration. *)
Class PyEnum (E : Type) := {
  enum_eq_dec :: EqDecision E;
  members : list E;
  member_name : E -> string
}.

(** [E[key]]: the member called [key], [KeyError] when there is none. *)
Definition enum_getitem {E} `{!PyEnum E} (key : string) : result E :=
  match List.find (fun c => String.eqb (member_name c) key) members with
  | Some c => Ok c
  | None => Raise (KeyError key)
  end.

Section Service.

Context {Category : Type} {Category_enum : PyEnum Category} {Py : Runtime}.

Definition Category_getitem (key : string) : result Category := enum_getitem key.

(** The Product entity of the spec's data model.  [id] is [None] until
    storage assigns one. *)
Record Product := mkProduct {
  id : option Z;
  name : string;
  description : string;
  price : Decimal;
  available : bool;
  category : Category
}.

(** A row of the product table: the columns besides the primary key. *)
Record Row := mkRow {
  row_name : string;
  row_description : string;
  row_price : Decimal;
  row_available : bool;
  row_category : Category
}.

(** The relational store: the product table, keyed by [id], and the next
    primary key the storage hands out. *)
Record Store := mkStore {
  rows : gmap Z Row;
  next_id : Z
}.

Definition to_row (p : Product) : Row :=
  mkRow (name p) (description p) (price p) (available p) (category p).

Definition of_row (i : Z) (r : Row) : Product :=
  mkProduct (Some i) (row_name r) (row_description r) (row_price r)
            (row_available r) (row_category r).

(** Modelled from the spec: [Product.serialize] of service/models.py, which
    is not among the sources.  The response shape mirrors the Product entity
    fields; a category is written by its name. *)
Definition serialize (p : Product) : json :=
  JObj [("id", match id p with Some i => JInt i | None => JNull end);
        ("name", JStr (name p));
        ("description", JStr (description p));
        ("price", JNum (price p));
        ("available", JBool (available p));
        ("category", JStr (member_name (category p)))].

Definition invalid {A} (msg : string) : result A := Raise (DataValidationError msg).

(** A required field of the body, checked against its type. *)
Definition required (items : list (string * json)) (key : string) : result json :=
  match dict_get items key with
  | Some v => Ok v
  | None => invalid ("Invalid product: missing " +:+ key)
  end.

Definition as_str (key : string) (v : json) : result string :=
  match v with
  | JStr s => Ok s
  | _ => invalid ("Invalid type for string [" +:+ key +:+ "]")
  end.

Definition as_decimal (key : string) (v : json) : result Decimal :=
  match v with
  | JNum d => Ok d
  | _ => invalid ("Invalid type for decimal [" +:+ key +:+ "]")
  end.

Definition as_bool (key : string) (v : json) : result bool :=
  match v with
  | JBool b => Ok b
  | _ => invalid ("Invalid type for boolean [" +:+ key +:+ "]")
  end.

Definition as_category (key : string) (v : json) : result Category :=
  match v with
  | JStr s =>
      match Category_getitem s with
      | Ok c => Ok c
      | Raise _ => invalid ("Invalid attribute: " +:+ s)
      end
  | _ => invalid ("Invalid type for category [" +:+ key +:+ "]")
  end.

Definition rbind {A B} (r : result A) (k : A -> result B) : result B :=
  match r with
  | Ok a => k a
  | Raise e => Raise e
  end.

(** Modelled from the spec: [Product.deserialize] of service/models.py, which
    is not among the sources.  It validates the JSON body against the
    required fields and their types (name and description strings, price a
    decimal, available a boolean, category the name of a member of the
    enumeration) and raises [DataValidationError] otherwise.  The receiver
    is given by its [id], the one attribute the body does not set. *)
Definition deserialize (self_id : option Z) (data : json) : result Product :=
  match data with
  | JObj items =>
      rbind (rbind (required items "name") (as_str "name")) (fun n =>
      rbind (rbind (required items "description") (as_str "description")) (fun d =>
      rbind (rbind (required items "price") (as_decimal "price")) (fun p =>
      rbind (rbind (required items "available") (as_bool "available")) (fun a =>
      rbind (rbind (required items "category") (as_category "category")) (fun c =>
      Ok (mkProduct self_id n d p a c))))))
  | _ => invalid "Invalid product: body of request contained bad or no data"
  end.

(** Modelled from the spec: the persistence capability
    [find]/[all]/[create]/[update]/[delete] and the three queries of
    service/models.py, which is not among the sources.  Reads never change
    the table; [create] stores the product under a key assigned by the
    storage; [update] rewrites the row of the product's id; [delete] removes
    it. *)
Definition Product_all : M Store (list Product) :=
  gets (fun st => uncurry of_row <$> map_to_list (rows st)).

Definition Product_find (product_id : Z) : M Store (option Product) :=
  gets (fun st => of_row product_id <$> rows st !! product_id).

Definition Product_find_by_name (n : string) : M Store (list Product) :=
  products <- Product_all ;;
  ret (filter (fun p => name p = n) products).

Definition Product_find_by_category (c : Category) : M Store (list Product) :=
  products <- Product_all ;;
  ret (filter (fun p => category p = c) products).

Definition Product_find_by_availability (a : bool) : M Store (list Product) :=
  products <- Product_all ;;
  ret (filter (fun p => available p = a) products).

Definition Product_create (p : Product) : M Store Product :=
  fun st =>
    let i := next_id st in
    (Ok (of_row i (to_row p)),
     mkStore (<[i := to_row p]> (rows st)) (i + 1)).

Definition Product_update (p : Product) : M Store unit :=
  fun st =>
    match id p with
    | Some i =>
        match rows st !! i with
        | Some _ => (Ok tt, mkStore (<[i := to_row p]> (rows st)) (next_id st))
        | None => (Ok tt, st)
        end
    | None => (invalid "Update called with empty ID field", st)
    end.

Definition Product_delete (p : Product) : M Store unit :=
  fun st =>
    match id p with
    | Some i => (Ok tt, mkStore (delete i (rows st)) (next_id st))
    | None => (Ok tt, st)
    end.

(** [url_for] cannot build the URL of a product without an id. *)
Definition url_for (req : request) (product_id : option Z) : result string :=
  match product_id with
  | Some i => Ok (url_for_get_products req i)
  | None => Raise (Exception "Could not build url for endpoint 'get_products'")
  end.

(** ** service.routes *)

(** [check_content_type]: checks that the media type is correct. *)
Definition check_content_type (req : request) (media_type : string) : M Store unit :=
  match content_type req with
  | None =>
      abort HTTP_415_UNSUPPORTED_MEDIA_TYPE ("Content-Type must be " +:+ media_type)
  | Some v =>
      if String.eqb v media_type then ret tt
      else abort HTTP_415_UNSUPPORTED_MEDIA_TYPE ("Content-Type must be " +:+ media_type)
  end.

(** The two [except] clauses of [create_products] and [update_products]:
    [DataValidationError] first, then any [Exception]. *)
Definition on_error {A} (error : exn) : option (M Store A) :=
  match error with
  | DataValidationError _ => Some (abort HTTP_400_BAD_REQUEST (str_exn error))
  | _ => Some (abort HTTP_500_INTERNAL_SERVER_ERROR (str_exn error))
  end.

(** The status [on_error] answers an exception of the [try] block with. *)
Definition error_status (e : exn) : Z :=
  match e with
  | DataValidationError _ => HTTP_400_BAD_REQUEST
  | _ => HTTP_500_INTERNAL_SERVER_ERROR
  end.

(** POST /products *)
Definition create_products (req : request) : M Store response :=
  check_content_type req "application/json" ;;;
  try_except
    (data <- lift (get_json req) ;;
     product <- lift (deserialize None data) ;;
     product <- Product_create product ;;
     location_url <- lift (url_for req (id product)) ;;
     ret (mkResponse (serialize product) HTTP_201_CREATED
                     [("Location", location_url)]))
    on_error.

(** The [except KeyError] clause of [list_products]. *)
Definition on_key_error {A} (category : string) (error : exn) : option (M Store A) :=
  match error with
  | KeyError _ =>
      Some (abort HTTP_400_BAD_REQUEST ("Invalid category: " +:+ category))
  | _ => None
  end.

(** GET /products.  A parameter is used only in the branch its truth value
    selects, where it is present, so [default ""] never falls back. *)
Definition list_products (req : request) : M Store response :=
  let name := args_get (args req) "name" in
  let category := args_get (args req) "category" in
  let available := args_get (args req) "available" in
  products <-
    (if truthy name then
       Product_find_by_name (default "" name)
     else if truthy category then
       try_except
         (category_value <- lift (Category_getitem (upper (default "" category))) ;;
          Product_find_by_category category_value)
         (on_key_error (default "" category))
     else if truthy available then
       Product_find_by_availability (is_available (default "" available))
     else
       Product_all) ;;
  let results := serialize <$> products in
  ret (mkResponse (JArr results) HTTP_200_OK []).

(** GET /products/<int:product_id> *)
Definition get_products (product_id : Z) : M Store response :=
  product <- Product_find product_id ;;
  match product with
  | None =>
      abort HTTP_404_NOT_FOUND
            ("Product with id '" +:+ pretty product_id +:+ "' was not found.")
  | Some product => ret (mkResponse (serialize product) HTTP_200_OK [])
  end.

(** [product.id = product_id] *)
Definition set_id (p : Product) (i : Z) : Product :=
  mkProduct (Some i) (name p) (description p) (price p) (available p) (category p).

(** PUT /products/<int:product_id> *)
Definition update_products (product_id : Z) (req : request) : M Store response :=
  check_content_type req "application/json" ;;;
  product <- Product_find product_id ;;
  match product with
  | None =>
      abort HTTP_404_NOT_FOUND
            ("Product with id '" +:+ pretty product_id +:+ "' was not found.")
  | Some product =>
      try_except
        (data <- lift (get_json req) ;;
         product <- lift (deserialize (id product) data) ;;
         let product := set_id product product_id in
         Product_update product ;;;
         ret (mkResponse (serialize product) HTTP_200_OK []))
        on_error
  end.

(** DELETE /products/<int:product_id> *)
Definition delete_products (product_id : Z) : M Store response :=
  product <- Product_find product_id ;;
  (match product with
   | Some product => Product_delete product
   | None => ret tt
   end) ;;;
  ret (mkResponse (JStr "") HTTP_204_NO_CONTENT []).

(** ** The service as a whole *)

(** A request, by the route that serves it. *)
Inductive call :=
| POST_products (req : request)
| GET_products (req : request)
| GET_product (product_id : Z)
| PUT_product (product_id : Z) (req : request)
| DELETE_product (product_id : Z).

(** The [app.route] table. *)
Definition dispatch (c : call) : M Store response :=
  match c with
  | POST_products req => create_products req
  | GET_products req => list_products req
  | GET_product product_id => get_products product_id
  | PUT_product product_id req => update_products product_id req
  | DELETE_product product_id => delete_products product_id
  end.

(** The table after a sequence of requests. *)
Fixpoint serve (cs : list call) (st : Store) : Store :=
  match cs with
  | [] => st
  | c :: cs' => serve cs' (snd (dispatch c st))
  end.

(** Every key in use is below the next one the storage hands out. *)
Definition store_wf (st : Store) : Prop :=
  forall i, is_Some (rows st !! i) -> i < next_id st.

End Service.

(** A field of a JSON object, [None] on any other document. *)
Definition json_field (j : json) (key : string) : option json :=
  match j with
  | JObj items => dict_get items key
  | _ => None
  end.

(** The fields of a product besides its id. *)
Definition product_fields : list string :=
  ["name"; "description"; "price"; "available"; "category"].

(** The same request with other query parameters. *)
Definition with_args (req : request) (a : list (string * string)) : request :=
  mkRequest (content_type req) a (get_json req) (host_url req).

(** The query parameters without those called [key]. *)
Definition args_without (key : string) (a : list (string * string))
  : list (string * string) :=
  List.filter (fun kv => negb (String.eqb (fst kv) key)) a.

(** [p] is a product of the table. *)
Definition stored {Category} (st : Store) (p : Product (Category := Category)) : Prop :=
  exists i r, rows st !! i = Some r /\ p = of_row i r.

(** The last two lines of [list_products]: the answer for the products a
    query selected. *)
Definition respond {Category} {Category_enum : PyEnum Category}
    (products : list (Product (Category := Category)))
  : M (Store (Category := Category)) response :=
  ret (mkResponse (JArr (serialize <$> products)) HTTP_200_OK []).

(** [r] raises nothing but [DataValidationError]. *)
Definition only_invalid {A} (r : result A) : Prop :=
  forall e, r = Raise e -> exists msg, e = DataValidationError msg.

(** ** The handlers over any model layer

    [service/routes.py] reaches the table only through the methods of
    [Product].  Here the handlers are written once more with these methods
    as parameters, so that what the routes do by themselves (the order of
    their checks, the exceptions they catch, the id they pin) is proved for
    every implementation of the methods, and not only for the table above.
    A method is any computation on the table: it may return, write, or raise
    any exception. *)
Section Handlers.

Context {Category : Type} {Category_enum : PyEnum Category} {Py : Runtime}.

Local Abbreviation ProductT := (Product (Category := Category)).
Local Abbreviation StoreT := (Store (Category := Category)).

Record Models := mkModels {
  (** [product.serialize()] *)
  m_serialize : ProductT -> json;
  (** [product.deserialize(data)], on [Product()] when the receiver is
      [None]; it returns the receiver *)
  m_deserialize : option ProductT -> json -> M StoreT ProductT;
  (** [product.create()], [product.update()], [product.delete()], each
      returning the receiver as the call leaves it *)
  m_create : ProductT -> M StoreT ProductT;
  m_update : ProductT -> M StoreT ProductT;
  m_delete : ProductT -> M StoreT unit;
  (** [Product.find(product_id)], [Product.all()] and the three queries *)
  m_find : Z -> M StoreT (option ProductT);
  m_all : M StoreT (list ProductT);
  m_find_by_name : string -> M StoreT (list ProductT);
  m_find_by_category : Category -> M StoreT (list ProductT);
  m_find_by_availability : bool -> M StoreT (list ProductT)
}.

(** POST /products *)
Definition create_products_with (m : Models) (req : request) : M StoreT response :=
  check_content_type req "application/json" ;;;
  try_except
    (data <- lift (get_json req) ;;
     product <- m_deserialize m None data ;;
     product <- m_create m product ;;
     location_url <- lift (url_for req (id product)) ;;
     ret (mkResponse (m_serialize m product) HTTP_201_CREATED
                     [("Location", location_url)]))
    on_error.

(** GET /products *)
Definition list_products_with (m : Models) (req : request) : M StoreT response :=
  let name := args_get (args req) "name" in
  let category := args_get (args req) "category" in
  let available := args_get (args req) "available" in
  products <-
    (if truthy name then
       m_find_by_name m (default "" name)
     else if truthy category then
       try_except
         (category_value <- lift (Category_getitem (upper (default "" category))) ;;
          m_find_by_category m category_value)
         (on_key_error (default "" category))
     else if truthy available then
       m_find_by_availability m (is_available (default "" available))
     else
       m_all m) ;;
  let results := m_serialize m <$> products in
  ret (mkResponse (JArr results) HTTP_200_OK []).

(** GET /products/<int:product_id> *)
Definition get_products_with (m : Models) (product_id : Z) : M StoreT response :=
  product <- m_find m product_id ;;
  match product with
  | None =>
      abort HTTP_404_NOT_FOUND
            ("Product with id '" +:+ pretty product_id +:+ "' was not found.")
  | Some product => ret (mkResponse (m_serialize m product) HTTP_200_OK [])
  end.

(** PUT /products/<int:product_id> *)
Definition update_products_with (m : Models) (product_id : Z) (req : request)
  : M StoreT response :=
  check_content_type req "application/json" ;;;
  product <- m_find m product_id ;;
  match product with
  | None =>
      abort HTTP_404_NOT_FOUND
            ("Product with id '" +:+ pretty product_id +:+ "' was not found.")
  | Some product =>
      try_except
        (data <- lift (get_json req) ;;
         product <- m_deserialize m (Some product) data ;;
         let product := set_id product product_id in
         product <- m_update m product ;;
         ret (mkResponse (m_serialize m product) HTTP_200_OK []))
        on_error
  end.

(** DELETE /products/<int:product_id> *)
Definition delete_products_with (m : Models) (product_id : Z) : M StoreT response :=
  product <- m_find m product_id ;;
  (match product with
   | Some product => m_delete m product
   | None => ret tt
   end) ;;;
  ret (mkResponse (JStr "") HTTP_204_NO_CONTENT []).

(** The methods of the table modelled above. *)
Definition table_models : Models := {|
  m_serialize := serialize;
  m_deserialize self data :=
    lift (deserialize (match self with Some p => id p | None => None end) data);
  m_create := Product_create;
  m_update p := (Product_update p ;;; ret p);
  m_delete := Product_delete;
  m_find := Product_find;
  m_all := Product_all;
  m_find_by_name := Product_find_by_name;
  m_find_by_category := Product_find_by_category;
  m_find_by_availability := Product_find_by_availability
|}.

(** A model layer whose [deserialize] leaves the id [tamper] chooses on the
    product, as one that read the id of the body would. *)
Definition with_id (p : ProductT) (i : option Z) : ProductT :=
  mkProduct i (name p) (description p) (price p) (available p) (category p).

Definition tampering (m : Models) (tamper : ProductT -> option Z) : Models := {|
  m_serialize := m_serialize m;
  m_deserialize self data :=
    (p <- m_deserialize m self data ;; ret (with_id p (tamper p)));
  m_create := m_create m;
  m_update := m_update m;
  m_delete := m_delete m;
  m_find := m_find m;
  m_all := m_all m;
  m_find_by_name := m_find_by_name m;
  m_find_by_category := m_find_by_category m;
  m_find_by_availability := m_find_by_availability m
|}.

(** Every member is found under its own name, as in a Python [Enum], where
    names are unique. *)
Definition enum_ok : Prop :=
  forall c : Category, Category_getitem (member_name c) = Ok c.

(** ** tests/test_routes.py *)

(** [new_product["id"]] of a response body. *)
Definition response_id (b : json) : option Z :=
  match json_field b "id" with
  | Some (JNum d) => if (exponent d =? 0)%Z then Some (coefficient d) else None
  | _ => None
  end.



End Handlers.

(** The values of [available] that [is_available] takes for true. *)
Definition accepted_available : list string :=
  ["1"; "t"; "T";
   "true"; "truE"; "trUe"; "trUE"; "tRue"; "tRuE"; "tRUe"; "tRUE";
   "True"; "TruE"; "TrUe"; "TrUE"; "TRue"; "TRuE"; "TRUe"; "TRUE"].

(** ** A catalogue to run the handlers on.  The tests of the repository
    name the member [TOOLS]. *)
Module Sample.

Inductive Category := UNKNOWN | CLOTHS | FOOD | HOUSEWARES | AUTOMOTIVE | TOOLS.

Definition Category_eq_dec : EqDecision Category.
Proof. solve_decision. Defined.

Definition Category_enum : PyEnum Category := {|
  enum_eq_dec := Category_eq_dec;
  members := [UNKNOWN; CLOTHS; FOOD; HOUSEWARES; AUTOMOTIVE; TOOLS];
  member_name c :=
    match c with
    | UNKNOWN => "UNKNOWN" | CLOTHS => "CLOTHS" | FOOD => "FOOD"
    | HOUSEWARES => "HOUSEWARES" | AUTOMOTIVE => "AUTOMOTIVE" | TOOLS => "TOOLS"
    end
|}.
#[local] Existing Instance Category_enum.

(** A runtime to compute with.  It is Python's on the values of this
    catalogue: strings of ASCII characters without quotes, backslashes or
    control characters, and the status codes below. *)
Definition ascii_runtime : Runtime := {|
  upper := upper_ascii;
  repr s := "'" +:+ s +:+ "'";
  status_name code :=
    if (code =? 400)%Z then "Bad Request"
    else if (code =? 404)%Z then "Not Found"
    else if (code =? 409)%Z then "Conflict"
    else if (code =? 415)%Z then "Unsupported Media Type"
    else if (code =? 500)%Z then "Internal Server Error"
    else "Unknown Error"
|}.
#[local] Existing Instance ascii_runtime.

Definition empty_store : Store (Category := Category) := mkStore ∅ 1.

Definition hammer : json :=
  JObj [("id", JInt 999); ("name", JStr "Hammer");
        ("description", JStr "Claw hammer");
        ("price", JNum (mkDecimal 1250 (-2))); ("available", JBool true);
        ("category", JStr "TOOLS")].

Definition apple : json :=
  JObj [("name", JStr "Apple"); ("description", JStr "Red apple");
        ("price", JNum (mkDecimal 30 (-2))); ("available", JBool false);
        ("category", JStr "FOOD")].

Definition with_json (b : json) : request :=
  mkRequest (Some "application/json") [] (Ok b) "http://localhost/".

Definition with_query (a : list (string * string)) : request :=
  mkRequest None a (Ok JNull) "http://localhost/".

(** A request declared as JSON whose body is not JSON. *)
Definition not_json : request :=
  mkRequest (Some "application/json") [] (Raise BadRequest) "http://localhost/".

(** The table after POSTing the hammer, then the apple. *)
Definition one_product : Store := snd (create_products (with_json hammer) empty_store).
Definition two_products : Store := snd (create_products (with_json apple) one_product).

Definition hammer_row : Row :=
  mkRow "Hammer" "Claw hammer" (mkDecimal 1250 (-2)) true TOOLS.

Definition hammer_product : Product :=
  mkProduct None "Hammer" "Claw hammer" (mkDecimal 1250 (-2)) true TOOLS.

(** What the POST of the hammer answers on the empty table. *)
Definition hammer_created : response :=
  mkResponse
    (JObj [("id", JInt 1); ("name", JStr "Hammer");
           ("description", JStr "Claw hammer");
           ("price", JNum (mkDecimal 1250 (-2))); ("available", JBool true);
           ("category", JStr "TOOLS")])
    HTTP_201_CREATED
    [("Location", "http://localhost/products/1")].

(** A body for PUT that carries an id of its own. *)
Definition mallet : json :=
  JObj [("id", JInt 999); ("name", JStr "Mallet");
        ("description", JStr "Rubber mallet");
        ("price", JNum (mkDecimal 899 (-2))); ("available", JBool false);
        ("category", JStr "TOOLS")].

Definition mallet_product : Product :=
  mkProduct None "Mallet" "Rubber mallet" (mkDecimal 899 (-2)) false TOOLS.

(** A model layer that fails: [create] raises a [KeyError], [update] an
    [HTTPException] with a code of its own, and so does the category
    query. *)
Definition failing_models : Models := {|
  m_serialize := serialize;
  m_deserialize := m_deserialize table_models;
  m_create _ := raise (KeyError "id");
  m_update _ := raise (HTTPException 409 "conflict");
  m_delete := Product_delete;
  m_find := Product_find;
  m_all := Product_all;
  m_find_by_name := Product_find_by_name;
  m_find_by_category _ := raise (KeyError "category");
  m_find_by_availability := Product_find_by_availability
|}.

End Sample.

(** * Properties of the handlers *)

Section Properties.

Context {Category : Type} {Category_enum : PyEnum Category} {Py : Runtime}.

Implicit Types (st : Store (Category := Category)) (p q : Product (Category := Category)).
Implicit Types (req : request) (product_id i : Z) (value key : string).

(** ** The enumeration and the body validation *)

Lemma Category_getitem_name key (c : Category) :
  Category_getitem key = Ok c -> member_name c = key.
Proof.
  unfold Category_getitem, enum_getitem.
  destruct (List.find _ members) as [c'|] eqn:Hfind; [|discriminate].
  intros [= <-]. apply find_some in Hfind as [_ Heq].
  by apply String.eqb_eq in Heq.
Qed.

Lemma Category_getitem_raises key (e : exn) :
  Category_getitem (Category := Category) key = Raise e -> e = KeyError key.
Proof.
  unfold Category_getitem, enum_getitem.
  destruct (List.find _ members); [discriminate|]. by intros [= <-].
Qed.

(** What a body that passes validation looks like. *)
Lemma deserialize_Ok self_id data p :
  deserialize self_id data = Ok p ->
  exists items n d pr a s c,
    data = JObj items /\
    dict_get items "name" = Some (JStr n) /\
    dict_get items "description" = Some (JStr d) /\
    dict_get items "price" = Some (JNum pr) /\
    dict_get items "available" = Some (JBool a) /\
    dict_get items "category" = Some (JStr s) /\
    Category_getitem s = Ok c /\
    p = mkProduct self_id n d pr a c.
Proof.
  destruct data as [| | | | |items]; try discriminate.
  unfold deserialize, required, rbind, as_str, as_decimal, as_bool, as_category, invalid.
  intros Hd.
  destruct (dict_get items "name") as [[| | |n| |]|] eqn:Hn; try discriminate.
  destruct (dict_get items "description") as [[| | |d| |]|] eqn:Hde; try discriminate.
  destruct (dict_get items "price") as [[| |pr| | |]|] eqn:Hpr; try discriminate.
  destruct (dict_get items "available") as [[|a| | | |]|] eqn:Ha; try discriminate.
  destruct (dict_get items "category") as [[| | |s| |]|] eqn:Hs; try discriminate.
  destruct (Category_getitem s) as [c|] eqn:Hc; try discriminate.
  injection Hd as <-. by exists items, n, d, pr, a, s, c.
Qed.

(** Validation fails with [DataValidationError] and nothing else. *)
Lemma only_invalid_Ok {A} (a : A) : only_invalid (Ok a).
Proof. intros e [=]. Qed.

Lemma only_invalid_invalid {A} msg : only_invalid (invalid (A := A) msg).
Proof. intros e [= <-]. by eexists. Qed.

Lemma only_invalid_rbind {A B} (r : result A) (k : A -> result B) :
  only_invalid r -> (forall a, only_invalid (k a)) -> only_invalid (rbind r k).
Proof.
  intros Hr Hk. destruct r as [a|e]; [apply Hk |].
  intros e' [= <-]. by apply Hr.
Qed.

Lemma only_invalid_required items key : only_invalid (required items key).
Proof.
  unfold required. destruct (dict_get items key);
    [apply only_invalid_Ok | apply only_invalid_invalid].
Qed.

Lemma only_invalid_as_category key (v : json) :
  only_invalid (as_category (Category := Category) key v).
Proof.
  destruct v as [| | |s| |]; try apply only_invalid_invalid.
  cbn. destruct (Category_getitem s);
    [apply only_invalid_Ok | apply only_invalid_invalid].
Qed.

Lemma deserialize_Raise self_id data (e : exn) :
  deserialize (Category := Category) self_id data = Raise e ->
  exists msg, e = DataValidationError msg.
Proof.
  revert e. change (only_invalid (deserialize (Category := Category) self_id data)).
  destruct data as [| | | | |items]; try apply only_invalid_invalid.
  cbn [deserialize].
  repeat (apply only_invalid_rbind; [apply only_invalid_rbind|intros ?]);
    try apply only_invalid_required; try apply only_invalid_Ok;
    try apply only_invalid_as_category;
    intros [] ; try apply only_invalid_invalid; apply only_invalid_Ok.
Qed.

(** The receiver's id does not decide whether a body is valid. *)
Lemma deserialize_self_id self_id self_id' data p :
  deserialize self_id data = Ok p ->
  deserialize self_id' data =
    Ok (mkProduct self_id' (name p) (description p) (price p) (available p) (category p)).
Proof.
  intros (items & n & d & pr & a & s & c & -> & Hn & Hd & Hp & Ha & Hs & Hc & ->)%deserialize_Ok.
  unfold deserialize, required. rewrite Hn, Hd, Hp, Ha, Hs. cbn. by rewrite Hc.
Qed.

(** The fields of a serialized product. *)
Lemma serialize_fields p :
  json_field (serialize p) "name" = Some (JStr (name p)) /\
  json_field (serialize p) "description" = Some (JStr (description p)) /\
  json_field (serialize p) "price" = Some (JNum (price p)) /\
  json_field (serialize p) "available" = Some (JBool (available p)) /\
  json_field (serialize p) "category" = Some (JStr (member_name (category p))).
Proof. by repeat split. Qed.

(** Serializing a product that came from a body gives the body's fields
    back. *)
Lemma serialize_deserialize self_id data p i key :
  deserialize self_id data = Ok p ->
  key ∈ product_fields ->
  json_field (serialize (set_id p i)) key = json_field data key /\
  is_Some (json_field data key).
Proof.
  intros (items & n & d & pr & a & s & c & -> & Hn & Hd & Hp & Ha & Hs & Hc & ->)%deserialize_Ok Hkey.
  apply Category_getitem_name in Hc.
  unfold product_fields in Hkey.
  repeat (apply elem_of_cons in Hkey as [-> | Hkey]);
    [| | | | | by apply elem_of_nil in Hkey];
    cbn [json_field]; rewrite ?Hn, ?Hd, ?Hp, ?Ha, ?Hs; cbn; rewrite ?Hc; split; eauto.
Qed.

(** ** The table *)

Lemma of_row_to_row p i : of_row i (to_row p) = set_id p i.
Proof. reflexivity. Qed.

Lemma to_row_of_row i (r : Row (Category := Category)) : to_row (of_row i r) = r.
Proof. by destruct r. Qed.

Lemma to_row_set_id p i : to_row (set_id p i) = to_row p.
Proof. reflexivity. Qed.

Lemma of_row_inj i j (r r' : Row (Category := Category)) :
  of_row i r = of_row j r' -> i = j /\ r = r'.
Proof. destruct r, r'. unfold of_row. cbn. by intros [= -> -> -> -> -> ->]. Qed.

#[local] Instance uncurry_of_row_inj :
  Inj (=) (=) (uncurry (of_row (Category := Category))).
Proof. intros [i r] [j r'] [-> ->]%of_row_inj. reflexivity. Qed.

(** [Product.all()] lists every product of the table once. *)
Lemma Product_all_spec st :
  exists products,
    Product_all st = (Ok products, st) /\
    NoDup products /\
    forall p, p ∈ products <-> stored st p.
Proof.
  eexists. split; [reflexivity|]. split.
  - apply (NoDup_fmap_2 _), NoDup_map_to_list.
  - intros p. rewrite list_elem_of_fmap. split.
    + intros ([i r] & -> & Hin). apply elem_of_map_to_list in Hin. by exists i, r.
    + intros (i & r & Hin & ->). exists (i, r). by rewrite elem_of_map_to_list.
Qed.

(** The three queries select from [Product.all()]. *)
Lemma Product_query_spec (P : Product -> Prop) `{!forall p, Decision (P p)} st :
  exists products,
    (products' <- Product_all ;; ret (filter P products')) st = (Ok products, st) /\
    NoDup products /\
    forall p, p ∈ products <-> stored st p /\ P p.
Proof.
  destruct (Product_all_spec st) as (l & Hall & Hnd & Hl).
  exists (filter P l). unfold bind. rewrite Hall. split; [reflexivity|]. split.
  - by apply NoDup_filter.
  - intros p. rewrite list_elem_of_filter, Hl. tauto.
Qed.

Lemma stored_find st p :
  stored st p <-> exists i, Product_find i st = (Ok (Some p), st).
Proof.
  unfold stored, Product_find, gets. split.
  - intros (i & r & Hr & ->). exists i. by rewrite Hr.
  - intros (i & Hf). destruct (rows st !! i) as [r|] eqn:Hr; [|discriminate].
    exists i, r. split; [done|]. cbn in Hf. congruence.
Qed.

(** ** The content type check *)

Lemma check_content_type_ok req st :
  content_type req = Some "application/json" ->
  check_content_type req "application/json" st = (Ok tt, st).
Proof. unfold check_content_type. by intros ->. Qed.

Lemma check_content_type_bad req st :
  content_type req <> Some "application/json" ->
  check_content_type req "application/json" st =
    (Raise (HTTPException HTTP_415_UNSUPPORTED_MEDIA_TYPE
                          "Content-Type must be application/json"), st).
Proof.
  unfold check_content_type. intros Hne.
  destruct (content_type req) as [v|]; [|reflexivity].
  destruct (String.eqb v "application/json") eqn:Heq; [|reflexivity].
  apply String.eqb_eq in Heq. congruence.
Qed.

(** ** The handlers, case by case *)

Lemma create_products_valid req st data p :
  content_type req = Some "application/json" ->
  get_json req = Ok data ->
  deserialize None data = Ok p ->
  create_products req st =
    (Ok (mkResponse (serialize (set_id p (next_id st))) HTTP_201_CREATED
                    [("Location", url_for_get_products req (next_id st))]),
     mkStore (<[next_id st := to_row p]> (rows st)) (next_id st + 1)).
Proof.
  intros Hct Hj Hd. unfold create_products, bind, try_except, lift.
  by rewrite (check_content_type_ok _ _ Hct), Hj, Hd.
Qed.

Lemma create_products_invalid req st data (e : exn) :
  content_type req = Some "application/json" ->
  get_json req = Ok data ->
  deserialize (Category := Category) None data = Raise e ->
  create_products req st = (Raise (HTTPException HTTP_400_BAD_REQUEST (str_exn e)), st).
Proof.
  intros Hct Hj Hd. unfold create_products, bind, try_except, lift.
  rewrite (check_content_type_ok _ _ Hct), Hj, Hd.
  by apply deserialize_Raise in Hd as [msg ->].
Qed.

(** [request.get_json()] raises inside the [try] block. *)
Lemma create_products_not_json req st (e : exn) :
  content_type req = Some "application/json" ->
  get_json req = Raise e ->
  create_products req st = (Raise (HTTPException (error_status e) (str_exn e)), st).
Proof.
  intros Hct Hj. unfold create_products, bind, try_except, lift.
  rewrite (check_content_type_ok _ _ Hct), Hj. by destruct e.
Qed.

(** The three ways of a POST once the content type is right. *)
Lemma create_products_cases req st :
  content_type req = Some "application/json" ->
  (exists e, get_json req = Raise e /\
     create_products req st =
       (Raise (HTTPException (error_status e) (str_exn e)), st)) \/
  (exists data e, get_json req = Ok data /\
     deserialize (Category := Category) None data = Raise e /\
     create_products req st =
       (Raise (HTTPException HTTP_400_BAD_REQUEST (str_exn e)), st)) \/
  (exists data p, get_json req = Ok data /\ deserialize None data = Ok p /\
     create_products req st =
       (Ok (mkResponse (serialize (set_id p (next_id st))) HTTP_201_CREATED
                       [("Location", url_for_get_products req (next_id st))]),
        mkStore (<[next_id st := to_row p]> (rows st)) (next_id st + 1))).
Proof.
  intros Hct. destruct (get_json req) as [data|e] eqn:Hj.
  - destruct (deserialize (Category := Category) None data) as [p|e] eqn:Hd.
    + right. right. exists data, p. by rewrite (create_products_valid _ _ _ _ Hct Hj Hd).
    + right. left. exists data, e. by rewrite (create_products_invalid _ _ _ _ Hct Hj Hd).
  - left. exists e. by rewrite (create_products_not_json _ _ _ Hct Hj).
Qed.

Lemma create_products_unsupported req st :
  content_type req <> Some "application/json" ->
  create_products req st =
    (Raise (HTTPException HTTP_415_UNSUPPORTED_MEDIA_TYPE
                          "Content-Type must be application/json"), st).
Proof.
  intros Hct. unfold create_products, bind.
  by rewrite (check_content_type_bad _ _ Hct).
Qed.

Lemma get_products_found product_id st (r : Row) :
  rows st !! product_id = Some r ->
  get_products product_id st =
    (Ok (mkResponse (serialize (of_row product_id r)) HTTP_200_OK []), st).
Proof. intros Hr. unfold get_products, bind, Product_find, gets. by rewrite Hr. Qed.

Lemma get_products_absent product_id st :
  rows st !! product_id = None ->
  get_products product_id st =
    (Raise (HTTPException HTTP_404_NOT_FOUND
              ("Product with id '" +:+ pretty product_id +:+ "' was not found.")), st).
Proof. intros Hr. unfold get_products, bind, Product_find, gets. by rewrite Hr. Qed.

Lemma update_products_unsupported product_id req st :
  content_type req <> Some "application/json" ->
  update_products product_id req st =
    (Raise (HTTPException HTTP_415_UNSUPPORTED_MEDIA_TYPE
                          "Content-Type must be application/json"), st).
Proof.
  intros Hct. unfold update_products, bind.
  by rewrite (check_content_type_bad _ _ Hct).
Qed.

Lemma update_products_absent product_id req st :
  content_type req = Some "application/json" ->
  rows st !! product_id = None ->
  update_products product_id req st =
    (Raise (HTTPException HTTP_404_NOT_FOUND
              ("Product with id '" +:+ pretty product_id +:+ "' was not found.")), st).
Proof.
  intros Hct Hr. unfold update_products, bind, Product_find, gets.
  by rewrite (check_content_type_ok _ _ Hct), Hr.
Qed.

Lemma update_products_valid product_id req st (r : Row) data p :
  content_type req = Some "application/json" ->
  rows st !! product_id = Some r ->
  get_json req = Ok data ->
  deserialize (Some product_id) data = Ok p ->
  update_products product_id req st =
    (Ok (mkResponse (serialize (set_id p product_id)) HTTP_200_OK []),
     mkStore (<[product_id := to_row p]> (rows st)) (next_id st)).
Proof.
  intros Hct Hr Hj Hd. unfold update_products, bind, Product_find, gets.
  rewrite (check_content_type_ok _ _ Hct), Hr. cbn [fmap option_fmap option_map].
  unfold try_except, lift. cbn [id of_row]. rewrite Hj, Hd.
  unfold Product_update. cbn [id set_id]. by rewrite Hr.
Qed.

Lemma update_products_invalid product_id req st (r : Row) data (e : exn) :
  content_type req = Some "application/json" ->
  rows st !! product_id = Some r ->
  get_json req = Ok data ->
  deserialize (Category := Category) (Some product_id) data = Raise e ->
  update_products product_id req st =
    (Raise (HTTPException HTTP_400_BAD_REQUEST (str_exn e)), st).
Proof.
  intros Hct Hr Hj Hd. unfold update_products, bind, Product_find, gets.
  rewrite (check_content_type_ok _ _ Hct), Hr. cbn [fmap option_fmap option_map].
  unfold try_except, lift. cbn [id of_row]. rewrite Hj, Hd.
  by apply deserialize_Raise in Hd as [msg ->].
Qed.

Lemma update_products_not_json product_id req st (r : Row) (e : exn) :
  content_type req = Some "application/json" ->
  rows st !! product_id = Some r ->
  get_json req = Raise e ->
  update_products product_id req st =
    (Raise (HTTPException (error_status e) (str_exn e)), st).
Proof.
  intros Hct Hr Hj. unfold update_products, bind, Product_find, gets.
  rewrite (check_content_type_ok _ _ Hct), Hr. cbn [fmap option_fmap option_map].
  unfold try_except, lift. rewrite Hj. by destruct e.
Qed.

(** The three ways of a PUT on a product of the table once the content type
    is right. *)
Lemma update_products_cases product_id req st (r : Row) :
  content_type req = Some "application/json" ->
  rows st !! product_id = Some r ->
  (exists e, get_json req = Raise e /\
     update_products product_id req st =
       (Raise (HTTPException (error_status e) (str_exn e)), st)) \/
  (exists data e, get_json req = Ok data /\
     deserialize (Category := Category) (Some product_id) data = Raise e /\
     update_products product_id req st =
       (Raise (HTTPException HTTP_400_BAD_REQUEST (str_exn e)), st)) \/
  (exists data p, get_json req = Ok data /\
     deserialize (Some product_id) data = Ok p /\
     update_products product_id req st =
       (Ok (mkResponse (serialize (set_id p product_id)) HTTP_200_OK []),
        mkStore (<[product_id := to_row p]> (rows st)) (next_id st))).
Proof.
  intros Hct Hr. destruct (get_json req) as [data|e] eqn:Hj.
  - destruct (deserialize (Category := Category) (Some product_id) data)
      as [p|e] eqn:Hd.
    + right. right. exists data, p.
      by rewrite (update_products_valid _ _ _ _ _ _ Hct Hr Hj Hd).
    + right. left. exists data, e.
      by rewrite (update_products_invalid _ _ _ _ _ _ Hct Hr Hj Hd).
  - left. exists e. by rewrite (update_products_not_json _ _ _ _ _ Hct Hr Hj).
Qed.

Lemma delete_products_eq product_id st :
  delete_products product_id st =
    (Ok (mkResponse (JStr "") HTTP_204_NO_CONTENT []),
     match rows st !! product_id with
     | Some _ => mkStore (delete product_id (rows st)) (next_id st)
     | None => st
     end).
Proof.
  unfold delete_products, bind, Product_find, gets.
  by destruct (rows st !! product_id).
Qed.

(** The URL [url_for] builds names one product. *)
Lemma url_for_get_products_inj req i j :
  url_for_get_products req i = url_for_get_products req j -> i = j.
Proof.
  unfold url_for_get_products. intros Heq.
  apply (inj (String.app (host_url req))) in Heq.
  apply (inj (String.app "products/")) in Heq.
  by apply (inj pretty) in Heq.
Qed.

(** ** Create and read *)

(** C1: when POST /products creates a product, the GET /products/{id} that
    follows with the returned id answers 200, and the name, description,
    price, available and category fields of its body are those of the
    product posted (and of the body the POST returned). *)
Theorem create_then_get req st (resp : response) st' :
  create_products req st = (Ok resp, st') ->
  status resp = HTTP_201_CREATED /\
  exists data i resp',
    get_json req = Ok data /\
    json_field (body resp) "id" = Some (JInt i) /\
    get_products i st' = (Ok resp', st') /\
    status resp' = HTTP_200_OK /\
    json_field (body resp') "id" = Some (JInt i) /\
    forall key, key ∈ product_fields ->
      is_Some (json_field data key) /\
      json_field (body resp') key = json_field data key /\
      json_field (body resp') key = json_field (body resp) key.
Proof.
  intros Hcreate.
  destruct (decide (content_type req = Some "application/json")) as [Hct|Hct];
    [|by rewrite (create_products_unsupported _ _ Hct) in Hcreate].
  destruct (create_products_cases req st Hct)
    as [(e & _ & Hrun) | [(data & e & _ & _ & Hrun) | (data & p & Hj & Hd & Hrun)]];
    rewrite Hrun in Hcreate; [done|done|].
  injection Hcreate as <- <-. split; [reflexivity|].
  exists data, (next_id st). eexists. split; [done|]. split; [reflexivity|]. split.
  - apply get_products_found. cbn [rows]. apply lookup_insert_eq.
  - rewrite of_row_to_row. cbn [status body]. repeat split; try reflexivity.
    all: by destruct (serialize_deserialize _ _ _ (next_id st) key Hd).
Qed.

(** A POST /products with Content-Type application/json whose body parses
    as JSON: when the body passes validation the answer is 201 with a
    Location header that is the URL of the new product, whose id is the key
    the storage hands out, whatever the body says; when it fails validation
    the answer is 400 and nothing is stored. *)
Theorem create_assigns_id req st data :
  content_type req = Some "application/json" ->
  get_json req = Ok data ->
  (forall p, deserialize None data = Ok p ->
     exists resp st',
       create_products req st = (Ok resp, st') /\
       status resp = HTTP_201_CREATED /\
       headers resp = [("Location", url_for_get_products req (next_id st))] /\
       (forall j, url_for_get_products req j = url_for_get_products req (next_id st) ->
                  j = next_id st) /\
       json_field (body resp) "id" = Some (JInt (next_id st)) /\
       Product_find (next_id st) st' = (Ok (Some (set_id p (next_id st))), st') /\
       next_id st' = next_id st + 1) /\
  (forall e, deserialize (Category := Category) None data = Raise e ->
     status_code (fst (create_products req st)) = HTTP_400_BAD_REQUEST /\
     snd (create_products req st) = st).
Proof.
  intros Hct Hj. split.
  - intros p Hd. do 2 eexists. split; [by apply (create_products_valid _ _ data)|].
    cbn [status headers body rows next_id]. repeat split.
    + intros j Hj'. by apply (url_for_get_products_inj req).
    + unfold Product_find, gets. cbn [rows]. by rewrite lookup_insert_eq.
  - intros e Hd. by rewrite (create_products_invalid _ _ _ _ Hct Hj Hd).
Qed.

(** ** Update *)

(** C2: a PUT /products/{id} with a valid body on an existing product
    answers 200; the stored product keeps the id of the URL path, whatever
    the body carries under "id", and each of its other fields is the
    body's; no other row changes. *)
Theorem update_preserves_id product_id req st (r : Row) data p :
  content_type req = Some "application/json" ->
  rows st !! product_id = Some r ->
  get_json req = Ok data ->
  deserialize None data = Ok p ->
  exists resp st' q,
    update_products product_id req st = (Ok resp, st') /\
    status resp = HTTP_200_OK /\
    body resp = serialize q /\
    Product_find product_id st' = (Ok (Some q), st') /\
    id q = Some product_id /\
    (forall key, key ∈ product_fields ->
       is_Some (json_field data key) /\
       json_field (serialize q) key = json_field data key) /\
    (forall i, i <> product_id -> rows st' !! i = rows st !! i) /\
    next_id st' = next_id st.
Proof.
  intros Hct Hr Hj Hd.
  pose proof (deserialize_self_id _ (Some product_id) _ _ Hd) as Hd'.
  exists (mkResponse (serialize (set_id p product_id)) HTTP_200_OK []).
  exists (mkStore (<[product_id := to_row p]> (rows st)) (next_id st)).
  exists (set_id p product_id). split.
  - by rewrite (update_products_valid _ _ _ _ _ _ Hct Hr Hj Hd').
  - cbn [status body rows next_id]. repeat split.
    + unfold Product_find, gets. cbn [rows]. by rewrite lookup_insert_eq.
    + by destruct (serialize_deserialize _ _ _ product_id key Hd).
    + by destruct (serialize_deserialize _ _ _ product_id key Hd).
    + intros i Hi. by apply lookup_insert_ne.
Qed.

(** ** Delete *)

(** C3: DELETE /products/{id} answers 204 for every id, whether or not the
    product exists; afterwards no product has that id and no other row has
    changed; a second DELETE of the same id answers 204 again and leaves the
    table as the first left it. *)
Theorem delete_is_idempotent product_id st :
  exists st1,
    delete_products product_id st =
      (Ok (mkResponse (JStr "") HTTP_204_NO_CONTENT []), st1) /\
    status_code (fst (delete_products product_id st)) = HTTP_204_NO_CONTENT /\
    Product_find product_id st1 = (Ok None, st1) /\
    (forall i, i <> product_id -> rows st1 !! i = rows st !! i) /\
    delete_products product_id st1 =
      (Ok (mkResponse (JStr "") HTTP_204_NO_CONTENT []), st1) /\
    status_code (fst (delete_products product_id st1)) = HTTP_204_NO_CONTENT.
Proof.
  eexists. split; [apply delete_products_eq|].
  rewrite !delete_products_eq. split; [reflexivity|].
  assert (Hgone : rows (match rows st !! product_id with
                        | Some _ => mkStore (delete product_id (rows st)) (next_id st)
                        | None => st
                        end) !! product_id = None).
  { destruct (rows st !! product_id) eqn:Hr; [apply lookup_delete_eq | exact Hr]. }
  repeat split.
  - unfold Product_find, gets. by rewrite Hgone.
  - intros i Hi. destruct (rows st !! product_id); [|reflexivity].
    by apply lookup_delete_ne.
  - by rewrite Hgone.
Qed.

(** ** Not found *)

(** C5: GET /products/{id} answers 404 exactly when the table has no row
    with that id, and so does PUT /products/{id} once the content type is
    right; a 404 answer leaves the table as it was. *)
Theorem not_found_iff_absent product_id st :
  (status_code (fst (get_products product_id st)) = HTTP_404_NOT_FOUND <->
   rows st !! product_id = None) /\
  (forall req, content_type req = Some "application/json" ->
     (status_code (fst (update_products product_id req st)) = HTTP_404_NOT_FOUND <->
      rows st !! product_id = None)) /\
  (status_code (fst (get_products product_id st)) = HTTP_404_NOT_FOUND ->
   snd (get_products product_id st) = st) /\
  (forall req,
     status_code (fst (update_products product_id req st)) = HTTP_404_NOT_FOUND ->
     snd (update_products product_id req st) = st).
Proof.
  assert (Hput : forall req, content_type req = Some "application/json" ->
            status_code (fst (update_products product_id req st)) = HTTP_404_NOT_FOUND ->
            rows st !! product_id = None).
  { intros req Hct. destruct (rows st !! product_id) as [r|] eqn:Hr; [|done].
    destruct (update_products_cases product_id req st r Hct Hr)
      as [(e & _ & ->) | [(data & e & _ & _ & ->) | (data & p & _ & _ & ->)]];
      [|done|done].
    cbn. by destruct e. }
  split; [|split; [|split]].
  - split.
    + destruct (rows st !! product_id) as [r|] eqn:Hr; [|done].
      by rewrite (get_products_found _ _ _ Hr).
    + intros Hr. by rewrite (get_products_absent _ _ Hr).
  - intros req Hct. split; [by apply Hput|].
    intros Hr. by rewrite (update_products_absent _ _ _ Hct Hr).
  - intros _. destruct (rows st !! product_id) as [r|] eqn:Hr.
    + by rewrite (get_products_found _ _ _ Hr).
    + by rewrite (get_products_absent _ _ Hr).
  - intros req H404.
    destruct (decide (content_type req = Some "application/json")) as [Hct|Hct].
    + by rewrite (update_products_absent _ _ _ Hct (Hput _ Hct H404)).
    + by rewrite (update_products_unsupported _ _ _ Hct).
Qed.

(** ** Unsupported media type *)

(** C8: POST /products and PUT /products/{id} answer 415 exactly when the
    Content-Type header is missing or is not application/json, and then the
    table is unchanged; with Content-Type application/json neither answers
    415. *)
Theorem unsupported_media_type product_id req st :
  (status_code (fst (create_products req st)) = HTTP_415_UNSUPPORTED_MEDIA_TYPE <->
   content_type req <> Some "application/json") /\
  (status_code (fst (update_products product_id req st)) = HTTP_415_UNSUPPORTED_MEDIA_TYPE <->
   content_type req <> Some "application/json") /\
  (content_type req <> Some "application/json" ->
   snd (create_products req st) = st /\
   snd (update_products product_id req st) = st).
Proof.
  split; [|split].
  - split; [|intros Hct; by rewrite (create_products_unsupported _ _ Hct)].
    intros H415 Hct.
    destruct (create_products_cases req st Hct)
      as [(e & _ & Hrun) | [(data & e & _ & _ & Hrun) | (data & p & _ & _ & Hrun)]];
      rewrite Hrun in H415; [|done|done].
    cbn in H415. by destruct e.
  - split; [|intros Hct; by rewrite (update_products_unsupported _ _ _ Hct)].
    intros H415 Hct.
    destruct (rows st !! product_id) as [r|] eqn:Hr.
    + destruct (update_products_cases product_id req st r Hct Hr)
        as [(e & _ & Hrun) | [(data & e & _ & _ & Hrun) | (data & p & _ & _ & Hrun)]];
        rewrite Hrun in H415; [|done|done].
      cbn in H415. by destruct e.
    + by rewrite (update_products_absent _ _ _ Hct Hr) in H415.
  - intros Hct. split.
    + by rewrite (create_products_unsupported _ _ Hct).
    + by rewrite (update_products_unsupported _ _ _ Hct).
Qed.

(** ** List and search *)

Lemma truthy_nonempty value : value <> "" -> truthy (Some value) = true.
Proof.
  intros Hne. cbn. destruct (String.eqb value "") eqn:Heq; [|reflexivity].
  by apply String.eqb_eq in Heq.
Qed.

(** The four branches of [list_products]. *)
Lemma list_products_name req st value :
  args_get (args req) "name" = Some value -> value <> "" ->
  list_products req st = (products <- Product_find_by_name value ;; respond products) st.
Proof.
  intros Hn Hne. unfold list_products. by rewrite Hn, (truthy_nonempty _ Hne).
Qed.

Lemma list_products_category req st value :
  truthy (args_get (args req) "name") = false ->
  args_get (args req) "category" = Some value -> value <> "" ->
  list_products req st =
    (products <-
       try_except
         (category_value <- lift (Category_getitem (upper value)) ;;
          Product_find_by_category category_value)
         (on_key_error value) ;;
     respond products) st.
Proof.
  intros Hn Hc Hne. unfold list_products. by rewrite Hn, Hc, (truthy_nonempty _ Hne).
Qed.

Lemma list_products_available req st value :
  truthy (args_get (args req) "name") = false ->
  truthy (args_get (args req) "category") = false ->
  args_get (args req) "available" = Some value -> value <> "" ->
  list_products req st =
    (products <- Product_find_by_availability (is_available value) ;;
     respond products) st.
Proof.
  intros Hn Hc Ha Hne. unfold list_products.
  by rewrite Hn, Hc, Ha, (truthy_nonempty _ Hne).
Qed.

Lemma list_products_all req st :
  truthy (args_get (args req) "name") = false ->
  truthy (args_get (args req) "category") = false ->
  truthy (args_get (args req) "available") = false ->
  list_products req st = (products <- Product_all ;; respond products) st.
Proof. intros Hn Hc Ha. unfold list_products. by rewrite Hn, Hc, Ha. Qed.

(** A query followed by the answer. *)
Lemma respond_query (P : Product -> Prop) `{!forall p, Decision (P p)} st :
  exists products,
    (products <- (products' <- Product_all ;; ret (filter P products')) ;;
     respond products) st =
      (Ok (mkResponse (JArr (serialize <$> products)) HTTP_200_OK []), st) /\
    NoDup products /\
    forall p, p ∈ products <-> stored st p /\ P p.
Proof.
  destruct (Product_query_spec P st) as (l & Hq & Hnd & Hl).
  exists l. split; [|done]. unfold bind at 1. by rewrite Hq.
Qed.

(** C7: GET /products?name=<value> with a non-empty value answers 200 with
    the serialized products of the table whose name is exactly <value>, each
    once, and no other product. *)
Theorem list_by_name req st value :
  args_get (args req) "name" = Some value -> value <> "" ->
  exists products,
    list_products req st =
      (Ok (mkResponse (JArr (serialize <$> products)) HTTP_200_OK []), st) /\
    NoDup products /\
    forall p, p ∈ products <-> stored st p /\ name p = value.
Proof.
  intros Hn Hne. rewrite (list_products_name _ _ _ Hn Hne).
  apply (respond_query (fun p => name p = value)).
Qed.

(** C9: GET /products?available=<v> with a non-empty v is never an error:
    v stands for true exactly when its lower-case form is "true", "1" or
    "t", and for false otherwise ("yes", "FALSE" and "garbage" are false);
    the answer is 200 with the products of that availability. *)
Theorem list_by_availability req st value :
  truthy (args_get (args req) "name") = false ->
  truthy (args_get (args req) "category") = false ->
  args_get (args req) "available" = Some value -> value <> "" ->
  (is_available value = true <->
   lower value = "true" \/ lower value = "1" \/ lower value = "t") /\
  (is_available "yes" = false /\ is_available "FALSE" = false /\
   is_available "garbage" = false) /\
  exists products,
    list_products req st =
      (Ok (mkResponse (JArr (serialize <$> products)) HTTP_200_OK []), st) /\
    NoDup products /\
    forall p, p ∈ products <-> stored st p /\ available p = is_available value.
Proof.
  intros Hn Hc Ha Hne. split; [|split; [done|]].
  - unfold is_available, str_in. cbn [existsb].
    rewrite !orb_true_iff, !String.eqb_eq. intuition discriminate.
  - rewrite (list_products_available _ _ _ Hn Hc Ha Hne).
    apply (respond_query (fun p => available p = is_available value)).
Qed.

Lemma args_get_without key key' (a : list (string * string)) :
  args_get (args_without key a) key' =
    if String.eqb key key' then None else args_get a key'.
Proof.
  unfold args_without. induction a as [|[k v] a IH]; cbn.
  - by destruct (String.eqb key key').
  - destruct (String.eqb k key) eqn:Hk; cbn.
    + apply String.eqb_eq in Hk as ->. rewrite IH.
      by destruct (String.eqb key key').
    + rewrite IH. destruct (String.eqb k key') eqn:Hk'; [|done].
      apply String.eqb_eq in Hk' as ->.
      destruct (String.eqb key key') eqn:Hkk; [|done].
      apply String.eqb_eq in Hkk as ->. by rewrite String.eqb_refl in Hk.
Qed.

(** C4, amended: GET /products?category=<value>, without a non-empty name.
    A non-empty value is upper-cased by [str.upper] and looked up by name in
    the enumeration: when no member has that name the answer is 400 and the
    table is untouched, and otherwise it is 200 with exactly the products
    of that category.  An empty value is an absent filter: the answer is
    200, that of the same request without the category parameter, and it
    lists every product when there is no available parameter either. *)
Theorem list_by_category req st value :
  truthy (args_get (args req) "name") = false ->
  args_get (args req) "category" = Some value ->
  (value = "" ->
     status_code (fst (list_products req st)) = HTTP_200_OK /\
     list_products req st =
       list_products (with_args req (args_without "category" (args req))) st /\
     (truthy (args_get (args req) "available") = false ->
      exists products,
        list_products req st =
          (Ok (mkResponse (JArr (serialize <$> products)) HTTP_200_OK []), st) /\
        NoDup products /\
        forall p, p ∈ products <-> stored st p)) /\
  (value <> "" ->
   forall e, Category_getitem (Category := Category) (upper value) = Raise e ->
     list_products req st =
       (Raise (HTTPException HTTP_400_BAD_REQUEST ("Invalid category: " +:+ value)), st)) /\
  (value <> "" ->
   forall c, Category_getitem (upper value) = Ok c ->
     exists products,
       list_products req st =
         (Ok (mkResponse (JArr (serialize <$> products)) HTTP_200_OK []), st) /\
       NoDup products /\
       (forall p, p ∈ products <-> stored st p /\ category p = c) /\
       (forall p, p ∈ products ->
          json_field (serialize p) "category" = Some (JStr (upper value)))).
Proof.
  intros Hn Hc. split; [|split].
  - intros ->.
    assert (Hrun : list_products req st =
              (products <-
                 (if truthy (args_get (args req) "available") then
                    Product_find_by_availability
                      (is_available (default "" (args_get (args req) "available")))
                  else Product_all) ;;
               respond products) st).
    { unfold list_products. by rewrite Hn, Hc. }
    split; [|split].
    + rewrite Hrun. by destruct (truthy (args_get (args req) "available")).
    + rewrite Hrun. unfold list_products. cbn [with_args args].
      rewrite !args_get_without. cbn [String.eqb Ascii.eqb Bool.eqb].
      by rewrite Hn.
    + intros Ha. rewrite Hrun, Ha.
      destruct (Product_all_spec st) as (l & Hl & Hnd & Hin).
      exists l. split; [|done]. unfold bind. by rewrite Hl.
  - intros Hne e He. rewrite (list_products_category _ _ _ Hn Hc Hne).
    unfold bind, try_except, lift. rewrite He.
    by apply Category_getitem_raises in He as ->.
  - intros Hne c Hget. rewrite (list_products_category _ _ _ Hn Hc Hne).
    destruct (respond_query (fun p => category p = c) st) as (l & Hl & Hnd & Hin).
    exists l. split; [|split; [done|split; [done|]]].
    + rewrite <- Hl. unfold bind, try_except, lift, Product_find_by_category.
      by rewrite Hget.
    + intros p [_ Hcat]%Hin. cbn. by rewrite Hcat, (Category_getitem_name _ _ Hget).
Qed.

(** C10: of the query parameters of GET /products one filter at most is
    applied, name before category before available: the answer is that of
    the request carrying only the first non-empty one of them, so a
    non-empty name answers 200 whatever the category is; an empty value
    counts as an absent one; with no filter left every product is
    returned. *)
Theorem list_filter_precedence req st :
  (forall value, args_get (args req) "name" = Some value -> value <> "" ->
     list_products req st = list_products (with_args req [("name", value)]) st /\
     status_code (fst (list_products req st)) = HTTP_200_OK) /\
  (forall value, truthy (args_get (args req) "name") = false ->
     args_get (args req) "category" = Some value -> value <> "" ->
     list_products req st = list_products (with_args req [("category", value)]) st) /\
  (forall value, truthy (args_get (args req) "name") = false ->
     truthy (args_get (args req) "category") = false ->
     args_get (args req) "available" = Some value -> value <> "" ->
     list_products req st = list_products (with_args req [("available", value)]) st) /\
  (truthy (args_get (args req) "name") = false ->
   truthy (args_get (args req) "category") = false ->
   truthy (args_get (args req) "available") = false ->
   list_products req st = list_products (with_args req []) st /\
   exists products,
     list_products req st =
       (Ok (mkResponse (JArr (serialize <$> products)) HTTP_200_OK []), st) /\
     NoDup products /\
     forall p, p ∈ products <-> stored st p) /\
  (truthy (Some "") = false /\ truthy None = false).
Proof.
  split; [|split; [|split; [|split; [|done]]]].
  - intros value Hn Hne. rewrite (list_products_name _ _ _ Hn Hne). split.
    + by rewrite (list_products_name (with_args req _) _ value).
    + destruct (respond_query (fun p => name p = value) st) as (l & Hl & _).
      unfold Product_find_by_name. by rewrite Hl.
  - intros value Hn Hc Hne. rewrite (list_products_category _ _ _ Hn Hc Hne).
    by rewrite (list_products_category (with_args req _) _ value).
  - intros value Hn Hc Ha Hne. rewrite (list_products_available _ _ _ Hn Hc Ha Hne).
    by rewrite (list_products_available (with_args req _) _ value).
  - intros Hn Hc Ha. rewrite (list_products_all _ _ Hn Hc Ha). split.
    + by rewrite (list_products_all (with_args req _) _).
    + destruct (Product_all_spec st) as (l & Hl & Hnd & Hin).
      exists l. split; [|done]. unfold bind. by rewrite Hl.
Qed.

(** ** Reads, writes and the keys of the table *)

(** Reads never change the table. *)
Lemma get_products_reads product_id st : snd (get_products product_id st) = st.
Proof.
  destruct (rows st !! product_id) as [r|] eqn:Hr.
  - by rewrite (get_products_found _ _ _ Hr).
  - by rewrite (get_products_absent _ _ Hr).
Qed.

Lemma list_products_reads req st : snd (list_products req st) = st.
Proof.
  unfold list_products.
  destruct (truthy (args_get (args req) "name")); [reflexivity|].
  destruct (truthy (args_get (args req) "category")).
  - unfold bind, try_except, lift.
    destruct (Category_getitem _) as [c|e] eqn:Hget; [reflexivity|].
    by apply Category_getitem_raises in Hget as ->.
  - by destruct (truthy (args_get (args req) "available")).
Qed.

(** What each write does to the table. *)
Lemma create_products_writes req st :
  snd (create_products req st) = st \/
  exists r, snd (create_products req st) =
              mkStore (<[next_id st := r]> (rows st)) (next_id st + 1).
Proof.
  destruct (decide (content_type req = Some "application/json")) as [Hct|Hct];
    [|left; by rewrite (create_products_unsupported _ _ Hct)].
  destruct (create_products_cases req st Hct)
    as [(e & _ & ->) | [(data & e & _ & _ & ->) | (data & p & _ & _ & ->)]];
    [by left|by left|].
  right. by exists (to_row p).
Qed.

Lemma update_products_writes product_id req st :
  snd (update_products product_id req st) = st \/
  exists r, is_Some (rows st !! product_id) /\
            snd (update_products product_id req st) =
              mkStore (<[product_id := r]> (rows st)) (next_id st).
Proof.
  destruct (decide (content_type req = Some "application/json")) as [Hct|Hct];
    [|left; by rewrite (update_products_unsupported _ _ _ Hct)].
  destruct (rows st !! product_id) as [r|] eqn:Hr;
    [|left; by rewrite (update_products_absent _ _ _ Hct Hr)].
  destruct (update_products_cases product_id req st r Hct Hr)
    as [(e & _ & ->) | [(data & e & _ & _ & ->) | (data & p & _ & _ & ->)]];
    [by left|by left|].
  right. exists (to_row p). split; [by eexists|done].
Qed.

(** The invariant of the storage holds after every request. *)
Lemma dispatch_store_wf (c : call) st :
  store_wf st -> store_wf (snd (dispatch c st)).
Proof.
  intros Hwf. destruct c as [req|req|product_id|product_id req|product_id]; cbn [dispatch].
  - destruct (create_products_writes req st) as [-> | [r ->]]; [done|].
    intros i [x Hx]. cbn [rows next_id] in *.
    destruct (decide (i = next_id st)) as [-> | Hne]; [lia|].
    rewrite lookup_insert_ne in Hx by done.
    assert (i < next_id st) by (apply Hwf; by eexists). lia.
  - by rewrite list_products_reads.
  - by rewrite get_products_reads.
  - destruct (update_products_writes product_id req st) as [-> | (r & Hex & ->)]; [done|].
    intros i [x Hx]. cbn [rows next_id] in *.
    destruct (decide (i = product_id)) as [-> | Hne]; [by apply Hwf|].
    rewrite lookup_insert_ne in Hx by done. apply Hwf. by eexists.
  - rewrite delete_products_eq. cbn [snd].
    destruct (rows st !! product_id) eqn:Hr; [|done].
    intros i [x Hx]. cbn [rows next_id] in *.
    apply lookup_delete_Some in Hx as [_ Hx]. apply Hwf. by eexists.
Qed.

Lemma serve_store_wf (cs : list call) st : store_wf st -> store_wf (serve cs st).
Proof.
  revert st. induction cs as [|c cs IH]; intros st Hwf; [done|].
  cbn [serve]. by apply IH, dispatch_store_wf.
Qed.

(** On such a table the key of a new product is free, so a POST leaves
    every product already stored as it is. *)
Lemma create_products_frame req st i (r : Row) :
  store_wf st ->
  rows st !! i = Some r ->
  rows (snd (create_products req st)) !! i = Some r.
Proof.
  intros Hwf Hr. destruct (create_products_writes req st) as [-> | [r' ->]]; [done|].
  cbn [rows]. rewrite lookup_insert_ne; [done|].
  assert (i < next_id st) by (apply Hwf; by eexists). lia.
Qed.

End Properties.

(** * The handlers over any model layer *)

Section HandlerProperties.

Context {Category : Type} {Category_enum : PyEnum Category} {Py : Runtime}.

Implicit Types (m : Models (Category := Category)).
Implicit Types (st : Store (Category := Category)) (p q : Product (Category := Category)).
Implicit Types (req : request) (product_id i : Z) (value key : string) (e : exn).

(** The handlers of the table are the handlers over [table_models]. *)
Lemma create_products_table req st :
  create_products_with table_models req st = create_products req st.
Proof. reflexivity. Qed.

Lemma list_products_table req st :
  list_products_with table_models req st = list_products req st.
Proof. reflexivity. Qed.

Lemma get_products_table product_id st :
  get_products_with table_models product_id st = get_products product_id st.
Proof. reflexivity. Qed.

Lemma delete_products_table product_id st :
  delete_products_with table_models product_id st = delete_products product_id st.
Proof. reflexivity. Qed.

Lemma update_products_table product_id req st :
  update_products_with table_models product_id req st =
  update_products product_id req st.
Proof.
  unfold update_products_with, update_products, bind.
  destruct (check_content_type req "application/json" st) as [[[]|e] st0]; [|done].
  cbn [table_models m_find m_deserialize m_update m_serialize].
  destruct (Product_find product_id st0) as [[[p0|]|e] st1]; [|done|done].
  unfold try_except, lift, bind.
  destruct (get_json req) as [data|e]; [|done].
  destruct (deserialize (id p0) data) as [p|e]; [|done].
  by destruct (Product_update (set_id p product_id) st1) as [[[]|e] st2].
Qed.

(** The two [except] clauses, for any [try] block. *)
Lemma try_except_on_error {A} (block : M Store A) st :
  try_except block on_error st =
    match block st with
    | (Ok a, st') => (Ok a, st')
    | (Raise e, st') => (Raise (HTTPException (error_status e) (str_exn e)), st')
    end.
Proof.
  unfold try_except. destruct (block st) as [[a|e] st']; [done|]. by destruct e.
Qed.

Lemma error_status_cases e :
  error_status e = HTTP_400_BAD_REQUEST \/ error_status e = HTTP_500_INTERNAL_SERVER_ERROR.
Proof. destruct e; cbn; auto. Qed.

(** ** POST /products *)

(** Whatever the model layer does, [create_products] answers with a 201
    response or aborts with 400, 415 or 500: no exception of a method
    leaves the handler as it was raised. *)
Theorem create_products_with_outcomes m req st :
  (exists resp, fst (create_products_with m req st) = Ok resp /\
                status resp = HTTP_201_CREATED /\
                exists location, headers resp = [("Location", location)]) \/
  (exists code d, fst (create_products_with m req st) = Raise (HTTPException code d) /\
                  (code = HTTP_400_BAD_REQUEST \/
                   code = HTTP_415_UNSUPPORTED_MEDIA_TYPE \/
                   code = HTTP_500_INTERNAL_SERVER_ERROR)).
Proof.
  unfold create_products_with, bind.
  destruct (decide (content_type req = Some "application/json")) as [Hct|Hct].
  - rewrite (check_content_type_ok _ _ Hct), try_except_on_error.
    unfold lift.
    destruct (get_json req) as [data|e].
    + destruct (m_deserialize m None data st) as [[p|e] st1].
      * destruct (m_create m p st1) as [[p'|e] st2].
        -- destruct (url_for req (id p')) as [location|e]; cbn.
           ++ left. eexists. split; [done|]. split; [done|]. by eexists.
           ++ right. do 2 eexists. split; [done|].
              destruct (error_status_cases e) as [-> | ->]; auto.
        -- right. do 2 eexists. split; [done|].
           destruct (error_status_cases e) as [-> | ->]; auto.
      * right. do 2 eexists. split; [done|].
        destruct (error_status_cases e) as [-> | ->]; auto.
    + right. do 2 eexists. split; [done|].
      destruct (error_status_cases e) as [-> | ->]; auto.
  - rewrite (check_content_type_bad _ _ Hct). right. do 2 eexists. split; [done|]. auto.
Qed.

(** An exception raised in the [try] block of [create_products], by
    [request.get_json()], by [deserialize] or by [create], is answered with
    400 when it is a [DataValidationError] and with 500 otherwise, an
    [HTTPException] with a code of its own included (so the [BadRequest] of
    a body that is not JSON becomes a 500); the description is [str(error)],
    and the table stays as the raising call left it. *)
Theorem create_products_with_errors m req st :
  content_type req = Some "application/json" ->
  (forall e,
     get_json req = Raise e ->
     create_products_with m req st =
       (Raise (HTTPException (error_status e) (str_exn e)), st)) /\
  (forall data e st1,
     get_json req = Ok data ->
     m_deserialize m None data st = (Raise e, st1) ->
     create_products_with m req st =
       (Raise (HTTPException (error_status e) (str_exn e)), st1)) /\
  (forall data p e st1 st2,
     get_json req = Ok data ->
     m_deserialize m None data st = (Ok p, st1) ->
     m_create m p st1 = (Raise e, st2) ->
     create_products_with m req st =
       (Raise (HTTPException (error_status e) (str_exn e)), st2)) /\
  (forall msg, error_status (DataValidationError msg) = HTTP_400_BAD_REQUEST /\
               str_exn (DataValidationError msg) = msg) /\
  (forall code d, error_status (HTTPException code d) = HTTP_500_INTERNAL_SERVER_ERROR /\
                  str_exn (HTTPException code d) =
                    pretty code +:+ " " +:+ status_name code +:+ ": " +:+ d) /\
  (forall k, error_status (KeyError k) = HTTP_500_INTERNAL_SERVER_ERROR /\
             str_exn (KeyError k) = repr k).
Proof.
  intros Hct.
  assert (Hrun : create_products_with m req st =
            try_except
              (data <- lift (get_json req) ;;
               product <- m_deserialize m None data ;;
               product <- m_create m product ;;
               location_url <- lift (url_for req (id product)) ;;
               ret (mkResponse (m_serialize m product) HTTP_201_CREATED
                               [("Location", location_url)]))
              on_error st).
  { unfold create_products_with, bind at 1.
    by rewrite (check_content_type_ok _ _ Hct). }
  rewrite Hrun, try_except_on_error. unfold bind, lift.
  split; [|split; [|split; [|done]]].
  - intros e Hj. by rewrite Hj.
  - intros data e st1 Hj Hd. by rewrite Hj, Hd.
  - intros data p e st1 st2 Hj Hd Hc. by rewrite Hj, Hd, Hc.
Qed.

(** ** PUT /products/<int:product_id> *)

(** [update_products] checks the content type before it touches the model
    layer, and looks the product up before it reads the body: a wrong
    content type is a 415 that calls no method, a product that [find] does
    not return is a 404 whatever the body is, and an exception of [find],
    raised outside the [try] block, leaves the handler as it is. *)
Theorem update_products_with_checks m product_id req st :
  (content_type req <> Some "application/json" ->
   update_products_with m product_id req st =
     (Raise (HTTPException HTTP_415_UNSUPPORTED_MEDIA_TYPE
                           "Content-Type must be application/json"), st)) /\
  (content_type req = Some "application/json" ->
   forall st1, m_find m product_id st = (Ok None, st1) ->
     update_products_with m product_id req st =
       (Raise (HTTPException HTTP_404_NOT_FOUND
                 ("Product with id '" +:+ pretty product_id +:+ "' was not found.")),
        st1)) /\
  (content_type req = Some "application/json" ->
   forall e st1, m_find m product_id st = (Raise e, st1) ->
     update_products_with m product_id req st = (Raise e, st1)).
Proof.
  split; [|split].
  - intros Hct. unfold update_products_with, bind.
    by rewrite (check_content_type_bad _ _ Hct).
  - intros Hct st1 Hf. unfold update_products_with, bind.
    by rewrite (check_content_type_ok _ _ Hct), Hf.
  - intros Hct e st1 Hf. unfold update_products_with, bind.
    by rewrite (check_content_type_ok _ _ Hct), Hf.
Qed.

(** [update_products] sets [product.id = product_id] after [deserialize]:
    whatever id [deserialize] leaves on the product, the answer and the
    table are the same. *)
Theorem update_products_with_pins_id m (tamper : Product -> option Z) product_id req st :
  update_products_with (tampering m tamper) product_id req st =
  update_products_with m product_id req st.
Proof.
  unfold update_products_with, bind.
  destruct (check_content_type req "application/json" st) as [[[]|e] st0]; [|done].
  cbn [tampering m_find].
  destruct (m_find m product_id st0) as [[[p0|]|e] st1]; [|done|done].
  rewrite !try_except_on_error.
  cbn [tampering m_deserialize m_update m_serialize]. unfold bind, ret, lift.
  destruct (get_json req) as [data|e]; [|done].
  by destruct (m_deserialize m (Some p0) data st1) as [[p|e] st2].
Qed.

(** In the [try] block of [update_products], [update] is called on the
    product [deserialize] returned, with the id of the URL; its result is
    serialized into a 200 answer, and an exception of
    [request.get_json()], [deserialize] or [update] is answered like one in
    [create_products]: 400 for a [DataValidationError], 500 otherwise, with
    [str(error)] for description. *)
Theorem update_products_with_errors m product_id req st p0 st1 :
  content_type req = Some "application/json" ->
  m_find m product_id st = (Ok (Some p0), st1) ->
  (forall e,
     get_json req = Raise e ->
     update_products_with m product_id req st =
       (Raise (HTTPException (error_status e) (str_exn e)), st1)) /\
  (forall data e st2,
     get_json req = Ok data ->
     m_deserialize m (Some p0) data st1 = (Raise e, st2) ->
     update_products_with m product_id req st =
       (Raise (HTTPException (error_status e) (str_exn e)), st2)) /\
  (forall data p e st2 st3,
     get_json req = Ok data ->
     m_deserialize m (Some p0) data st1 = (Ok p, st2) ->
     m_update m (set_id p product_id) st2 = (Raise e, st3) ->
     update_products_with m product_id req st =
       (Raise (HTTPException (error_status e) (str_exn e)), st3)) /\
  (forall data p p' st2 st3,
     get_json req = Ok data ->
     m_deserialize m (Some p0) data st1 = (Ok p, st2) ->
     m_update m (set_id p product_id) st2 = (Ok p', st3) ->
     update_products_with m product_id req st =
       (Ok (mkResponse (m_serialize m p') HTTP_200_OK []), st3)) /\
  (forall code d, error_status (HTTPException code d) = HTTP_500_INTERNAL_SERVER_ERROR /\
                  str_exn (HTTPException code d) =
                    pretty code +:+ " " +:+ status_name code +:+ ": " +:+ d) /\
  (forall k, error_status (KeyError k) = HTTP_500_INTERNAL_SERVER_ERROR /\
             str_exn (KeyError k) = repr k).
Proof.
  intros Hct Hf.
  assert (Hrun : update_products_with m product_id req st =
            try_except
              (data <- lift (get_json req) ;;
               product <- m_deserialize m (Some p0) data ;;
               product <- m_update m (set_id product product_id) ;;
               ret (mkResponse (m_serialize m product) HTTP_200_OK []))
              on_error st1).
  { unfold update_products_with, bind at 1 2.
    by rewrite (check_content_type_ok _ _ Hct), Hf. }
  rewrite Hrun, try_except_on_error. unfold bind, lift.
  split; [|split; [|split; [|split; [|done]]]].
  - intros e Hj. by rewrite Hj.
  - intros data e st2 Hj Hd. by rewrite Hj, Hd.
  - intros data p e st2 st3 Hj Hd Hu. by rewrite Hj, Hd, Hu.
  - intros data p p' st2 st3 Hj Hd Hu. by rewrite Hj, Hd, Hu.
Qed.

(** ** GET /products *)

(** The [try] block of the category branch holds the query too: a
    [KeyError] raised by [find_by_category] itself is answered 400 "Invalid
    category", though the category is a member of the enumeration; any
    other exception of the query leaves the handler as it is. *)
Theorem list_products_with_key_error m req st value (c : Category) :
  truthy (args_get (args req) "name") = false ->
  args_get (args req) "category" = Some value -> value <> "" ->
  Category_getitem (upper value) = Ok c ->
  (forall k st1,
     m_find_by_category m c st = (Raise (KeyError k), st1) ->
     list_products_with m req st =
       (Raise (HTTPException HTTP_400_BAD_REQUEST ("Invalid category: " +:+ value)),
        st1)) /\
  (forall e st1,
     m_find_by_category m c st = (Raise e, st1) ->
     (forall k, e <> KeyError k) ->
     list_products_with m req st = (Raise e, st1)).
Proof.
  intros Hn Hc Hne Hget.
  assert (Hrun : list_products_with m req st =
            (products <-
               try_except
                 (category_value <- lift (Category_getitem (upper value)) ;;
                  m_find_by_category m category_value)
                 (on_key_error value) ;;
             ret (mkResponse (JArr (m_serialize m <$> products)) HTTP_200_OK [])) st).
  { unfold list_products_with. by rewrite Hn, Hc, (truthy_nonempty _ Hne). }
  rewrite Hrun. unfold bind, try_except, lift. rewrite Hget. split.
  - intros k st1 Hq. by rewrite Hq.
  - intros e st1 Hq Hk. rewrite Hq. destruct e; try done. by destruct (Hk key).
Qed.

(** ** Upper and lower case *)

Lemma ascii_lower_inv (c' c : ascii) :
  ascii_lower c' = c -> c' = c \/ c' = ascii_upper c.
Proof.
  intros <-. destruct c' as [[] [] [] [] [] [] [] []];
    first [by left | by right].
Qed.

Lemma lower_nil value : lower value = "" -> value = "".
Proof. by destruct value. Qed.

Lemma lower_cons value (c : ascii) (r : string) :
  lower value = String c r ->
  exists c' r', value = String c' r' /\ (c' = c \/ c' = ascii_upper c) /\ lower r' = r.
Proof.
  destruct value as [|c' r']; [done|]. cbn. intros [= Hc Hr].
  exists c', r'. split; [done|]. split; [by apply ascii_lower_inv | done].
Qed.

(** The category filter does not see the case of ASCII letters: two
    non-empty values with the same upper-case form leave the same table and
    get the same status and, when it is 200, the same answer (the message
    of a 400 quotes the value as it was sent). *)
Theorem list_products_with_category_case m req st value value' :
  value <> "" -> value' <> "" -> upper value = upper value' ->
  snd (list_products_with m (with_args req [("category", value)]) st) =
  snd (list_products_with m (with_args req [("category", value')]) st) /\
  status_code (fst (list_products_with m (with_args req [("category", value)]) st)) =
  status_code (fst (list_products_with m (with_args req [("category", value')]) st)) /\
  forall resp,
    fst (list_products_with m (with_args req [("category", value)]) st) = Ok resp <->
    fst (list_products_with m (with_args req [("category", value')]) st) = Ok resp.
Proof.
  intros Hne Hne' Hup.
  assert (Hrun : forall v, v <> "" ->
            list_products_with m (with_args req [("category", v)]) st =
              (products <-
                 try_except
                   (category_value <- lift (Category_getitem (upper v)) ;;
                    m_find_by_category m category_value)
                   (on_key_error v) ;;
               ret (mkResponse (JArr (m_serialize m <$> products)) HTTP_200_OK [])) st).
  { intros v Hv. unfold list_products_with. cbn [with_args args].
    change (args_get [("category", v)] "name") with (@None string).
    change (args_get [("category", v)] "category") with (Some v).
    by rewrite (truthy_nonempty _ Hv). }
  rewrite (Hrun _ Hne), (Hrun _ Hne'), Hup.
  unfold bind, try_except, lift.
  destruct (Category_getitem (upper value')) as [c|e]; cbn.
  - destruct (m_find_by_category m c st) as [[l|e] st1]; cbn; [done|].
    by destruct e.
  - by destruct e.
Qed.

(** The values of [available] taken for true are "1", "t", "T" and the
    sixteen spellings of "true" in upper and lower case, and no other. *)
Theorem is_available_accepted value :
  is_available value = true <-> value ∈ accepted_available.
Proof.
  split.
  - unfold is_available, str_in. cbn [existsb].
    rewrite !orb_true_iff, !String.eqb_eq. intros [H|[H|[H|H]]]; [| | |done].
    + apply lower_cons in H as (c1 & r1 & -> & H1 & H).
      apply lower_cons in H as (c2 & r2 & -> & H2 & H).
      apply lower_cons in H as (c3 & r3 & -> & H3 & H).
      apply lower_cons in H as (c4 & r4 & -> & H4 & ->%lower_nil).
      destruct H1 as [-> | ->], H2 as [-> | ->], H3 as [-> | ->], H4 as [-> | ->];
        apply (bool_decide_unpack _); vm_compute; exact I.
    + apply lower_cons in H as (c1 & r1 & -> & H1 & ->%lower_nil).
      destruct H1 as [-> | ->]; apply (bool_decide_unpack _); vm_compute; exact I.
    + apply lower_cons in H as (c1 & r1 & -> & H1 & ->%lower_nil).
      destruct H1 as [-> | ->]; apply (bool_decide_unpack _); vm_compute; exact I.
  - unfold accepted_available. intros H.
    repeat (apply elem_of_cons in H as [-> | H]); try reflexivity.
    by apply elem_of_nil in H.
Qed.

(** ** The content type check *)

Lemma append_eq_self (a b : string) : a +:+ b = a -> b = "".
Proof.
  induction a as [|c a IH]; [done|]. cbn. intros [= H]. by apply IH.
Qed.

(** [check_content_type] compares the whole header with the media type:
    it returns, without touching the table, exactly when they are equal,
    and aborts with 415 otherwise, so the media type followed by parameters
    (application/json; charset=utf-8) is refused. *)
Theorem check_content_type_exact req (media_type : string) st :
  (check_content_type req media_type st = (Ok tt, st) <->
   content_type req = Some media_type) /\
  (content_type req <> Some media_type ->
   check_content_type req media_type st =
     (Raise (HTTPException HTTP_415_UNSUPPORTED_MEDIA_TYPE
                           ("Content-Type must be " +:+ media_type)), st)) /\
  (forall parameters, parameters <> "" ->
     content_type req = Some (media_type +:+ parameters) ->
     fst (check_content_type req media_type st) =
       Raise (HTTPException HTTP_415_UNSUPPORTED_MEDIA_TYPE
                            ("Content-Type must be " +:+ media_type))).
Proof.
  assert (Hbad : content_type req <> Some media_type ->
            check_content_type req media_type st =
              (Raise (HTTPException HTTP_415_UNSUPPORTED_MEDIA_TYPE
                                    ("Content-Type must be " +:+ media_type)), st)).
  { unfold check_content_type. intros Hne.
    destruct (content_type req) as [v|]; [|done].
    destruct (String.eqb v media_type) eqn:Heq; [|done].
    apply String.eqb_eq in Heq. congruence. }
  split; [|split; [done|]].
  - split.
    + intros Hok. destruct (decide (content_type req = Some media_type)); [done|].
      by rewrite Hbad in Hok.
    + unfold check_content_type. intros ->. by rewrite String.eqb_refl.
  - intros parameters Hne Hct. rewrite Hbad; [done|].
    rewrite Hct. intros [= H]. by apply append_eq_self in H.
Qed.

End HandlerProperties.

(** * The handlers on the table, one request after another *)

Section TableProperties.

Context {Category : Type} {Category_enum : PyEnum Category} {Py : Runtime}.

Implicit Types (st : Store (Category := Category)) (p q : Product (Category := Category)).
Implicit Types (req : request) (product_id i k : Z) (value key : string) (e : exn).
Implicit Types (c : call) (cs : list call).

(** The body of a product is a body that passes validation. *)
Lemma deserialize_serialize (self_id : option Z) p :
  enum_ok -> deserialize self_id (serialize p) = Ok (with_id p self_id).
Proof.
  intros Hok. unfold deserialize, serialize, required, rbind. cbn.
  by rewrite (Hok (category p)).
Qed.


Lemma store_wf_fresh st : store_wf st -> rows st !! next_id st = None.
Proof.
  intros Hwf. destruct (rows st !! next_id st) eqn:Hr; [|done].
  assert (next_id st < next_id st) by (apply Hwf; by eexists). lia.
Qed.

(** ** Answers that are errors *)

(** A request answered with an error status (400 and above) leaves the
    table exactly as it was: a refused POST or PUT stores nothing. *)
Theorem errors_do_not_write c st :
  400 <= status_code (fst (dispatch c st)) -> snd (dispatch c st) = st.
Proof.
  destruct c as [req|req|product_id|product_id req|product_id]; cbn [dispatch].
  - destruct (decide (content_type req = Some "application/json")) as [Hct|Hct];
      [|by rewrite (create_products_unsupported _ _ Hct)].
    destruct (create_products_cases req st Hct)
      as [(e & _ & ->) | [(data & e & _ & _ & ->) | (data & p & _ & _ & ->)]];
      [done|done|].
    cbn. unfold HTTP_201_CREATED. lia.
  - intros _. apply list_products_reads.
  - intros _. apply get_products_reads.
  - destruct (decide (content_type req = Some "application/json")) as [Hct|Hct];
      [|by rewrite (update_products_unsupported _ _ _ Hct)].
    destruct (rows st !! product_id) as [r|] eqn:Hr;
      [|by rewrite (update_products_absent _ _ _ Hct Hr)].
    destruct (update_products_cases product_id req st r Hct Hr)
      as [(e & _ & ->) | [(data & e & _ & _ & ->) | (data & p & _ & _ & ->)]];
      [done|done|].
    cbn. unfold HTTP_200_OK. lia.
  - rewrite delete_products_eq. cbn. unfold HTTP_204_NO_CONTENT. lia.
Qed.

(** ** Requests in a row *)

(** POST then DELETE, as in [test_delete_product]: deleting the product a
    POST has just created gives back the rows the table had before, and a
    GET of its id answers 404. *)
Theorem create_then_delete req st (resp : response) st1 :
  store_wf st ->
  create_products req st = (Ok resp, st1) ->
  exists i,
    response_id (body resp) = Some i /\
    rows (snd (delete_products i st1)) = rows st /\
    status_code (fst (get_products i (snd (delete_products i st1)))) =
      HTTP_404_NOT_FOUND.
Proof.
  intros Hwf Hcreate.
  destruct (decide (content_type req = Some "application/json")) as [Hct|Hct];
    [|by rewrite (create_products_unsupported _ _ Hct) in Hcreate].
  destruct (create_products_cases req st Hct)
    as [(e & _ & Hrun) | [(data & e & _ & _ & Hrun) | (data & p & _ & _ & Hrun)]];
    rewrite Hrun in Hcreate; [done|done|].
  injection Hcreate as <- <-. exists (next_id st).
  split; [reflexivity|].
  rewrite delete_products_eq. cbn [snd rows]. rewrite lookup_insert_eq. cbn [rows].
  assert (Hrows : delete (next_id st) (<[next_id st := to_row p]> (rows st)) = rows st).
  { rewrite delete_insert_eq. apply delete_id. by apply store_wf_fresh. }
  split; [done|].
  rewrite get_products_absent; [done|]. cbn [rows]. apply lookup_delete_eq.
Qed.

(** PUT twice: repeating a PUT gives the answer of the first and leaves the
    table as the first left it. *)
Theorem update_twice product_id req st :
  update_products product_id req (snd (update_products product_id req st)) =
  update_products product_id req st.
Proof.
  destruct (decide (content_type req = Some "application/json")) as [Hct|Hct].
  2: { rewrite (update_products_unsupported _ _ _ Hct). cbn [snd].
       by rewrite (update_products_unsupported _ _ _ Hct). }
  destruct (rows st !! product_id) as [r|] eqn:Hr.
  2: { rewrite (update_products_absent _ _ _ Hct Hr). cbn [snd].
       by rewrite (update_products_absent _ _ _ Hct Hr). }
  destruct (update_products_cases product_id req st r Hct Hr)
    as [(e & _ & Hrun) | [(data & e & _ & _ & Hrun) | (data & p & Hj & Hd & Hrun)]];
    rewrite Hrun; cbn [snd]; [by rewrite Hrun|by rewrite Hrun|].
  rewrite (update_products_valid product_id req _ (to_row p) data p Hct);
    [|by apply lookup_insert_eq|done|done].
  cbn [rows next_id]. by rewrite insert_insert_eq.
Qed.

Lemma create_products_of_serialized req st p :
  enum_ok ->
  content_type req = Some "application/json" ->
  get_json req = Ok (serialize p) ->
  create_products req st =
    (Ok (mkResponse (serialize (set_id p (next_id st))) HTTP_201_CREATED
                    [("Location", url_for_get_products req (next_id st))]),
     mkStore (<[next_id st := to_row p]> (rows st)) (next_id st + 1)).
Proof.
  intros Hok Hct Hbody.
  rewrite (create_products_valid req st (serialize p) (with_id p None) Hct Hbody);
    [done|].
  by apply deserialize_serialize.
Qed.

(** POST of a serialized product, as the tests send it: when every member
    of the enumeration is found under its name, [serialize] gives a body
    that passes validation and reads back as the same product, the answer
    is 201, its body is that of the product under the new id, and a GET of
    that id answers the same body. *)
Theorem create_serialized_product req st p :
  enum_ok ->
  content_type req = Some "application/json" ->
  get_json req = Ok (serialize p) ->
  deserialize (id p) (serialize p) = Ok p /\
  exists st',
    create_products req st =
      (Ok (mkResponse (serialize (set_id p (next_id st))) HTTP_201_CREATED
                      [("Location", url_for_get_products req (next_id st))]), st') /\
    get_products (next_id st) st' =
      (Ok (mkResponse (serialize (set_id p (next_id st))) HTTP_200_OK []), st').
Proof.
  intros Hok Hct Hbody. split.
  - rewrite (deserialize_serialize _ _ Hok). by destruct p.
  - eexists. split; [by apply create_products_of_serialized|].
    rewrite (get_products_found _ _ (to_row p)); [done|]. apply lookup_insert_eq.
Qed.


End TableProperties.

(** * The handlers on the sample catalogue *)

#[local] Existing Instance Sample.Category_enum.
#[local] Existing Instance Sample.ascii_runtime.

Import Sample.

(** The POST of the hammer, as the handlers compute it. *)
Example create_hammer :
  create_products (with_json hammer) empty_store = (Ok hammer_created, one_product).
Proof. reflexivity. Qed.

(** tests/test_routes.py, [test_get_product_not_found]. *)
Example test_get_product_not_found :
  status_code (fst (get_products 0 empty_store)) = HTTP_404_NOT_FOUND.
Proof. reflexivity. Qed.

(** tests/test_routes.py, [test_delete_product]. *)
Example test_delete_product :
  let '(r, st) := delete_products 1 one_product in
  status_code r = HTTP_204_NO_CONTENT /\
  status_code (fst (get_products 1 st)) = HTTP_404_NOT_FOUND /\
  fst (Product_all st) = Ok [].
Proof. vm_compute. done. Qed.

(** tests/test_routes.py, [test_list_by_category]. *)
Example test_list_by_category :
  fst (list_products (with_query [("category", "TOOLS")]) two_products) =
    Ok (mkResponse (JArr [serialize (of_row 1 hammer_row)]) HTTP_200_OK []).
Proof. vm_compute. reflexivity. Qed.

(** [create_then_get] on the POST of the hammer. *)
Lemma create_then_get_witness :
  create_products (with_json hammer) empty_store = (Ok hammer_created, one_product) /\
  (status hammer_created = HTTP_201_CREATED /\
   exists data i resp',
     get_json (with_json hammer) = Ok data /\
     json_field (body hammer_created) "id" = Some (JInt i) /\
     get_products i one_product = (Ok resp', one_product) /\
     status resp' = HTTP_200_OK /\
     json_field (body resp') "id" = Some (JInt i) /\
     forall key, key ∈ product_fields ->
       is_Some (json_field data key) /\
       json_field (body resp') key = json_field data key /\
       json_field (body resp') key = json_field (body hammer_created) key).
Proof.
  split; [reflexivity|].
  apply (create_then_get (with_json hammer) empty_store hammer_created one_product).
  reflexivity.
Defined.

(** [create_assigns_id] on the POST of the hammer, which carries the id 999
    and is stored under 1. *)
Lemma create_assigns_id_witness :
  content_type (with_json hammer) = Some "application/json" /\
  get_json (with_json hammer) = Ok hammer /\
  deserialize None hammer = Ok hammer_product /\
  exists resp st',
    create_products (with_json hammer) empty_store = (Ok resp, st') /\
    status resp = HTTP_201_CREATED /\
    headers resp = [("Location", url_for_get_products (with_json hammer) 1)] /\
    (forall j, url_for_get_products (with_json hammer) j =
               url_for_get_products (with_json hammer) 1 -> j = 1) /\
    json_field (body resp) "id" = Some (JInt 1) /\
    Product_find 1 st' = (Ok (Some (set_id hammer_product 1)), st') /\
    next_id st' = 1 + 1.
Proof.
  split; [reflexivity|]. split; [reflexivity|]. split; [reflexivity|].
  apply (proj1 (create_assigns_id (with_json hammer) empty_store hammer eq_refl eq_refl)).
  reflexivity.
Defined.

(** [update_preserves_id] on PUT /products/1 with the mallet, whose body
    says id 999. *)
Lemma update_preserves_id_witness :
  content_type (with_json mallet) = Some "application/json" /\
  rows one_product !! 1 = Some hammer_row /\
  get_json (with_json mallet) = Ok mallet /\
  deserialize None mallet = Ok mallet_product /\
  exists resp st' q,
    update_products 1 (with_json mallet) one_product = (Ok resp, st') /\
    status resp = HTTP_200_OK /\
    body resp = serialize q /\
    Product_find 1 st' = (Ok (Some q), st') /\
    id q = Some 1 /\
    (forall key, key ∈ product_fields ->
       is_Some (json_field mallet key) /\
       json_field (serialize q) key = json_field mallet key) /\
    (forall i, i <> 1 -> rows st' !! i = rows one_product !! i) /\
    next_id st' = next_id one_product.
Proof.
  split; [reflexivity|]. split; [reflexivity|]. split; [reflexivity|].
  split; [reflexivity|].
  apply (update_preserves_id 1 (with_json mallet) one_product hammer_row mallet
                             mallet_product);
    reflexivity.
Defined.

(** [not_found_iff_absent] on PUT /products/7, which the table lacks. *)
Lemma not_found_iff_absent_witness :
  content_type (with_json mallet) = Some "application/json" /\
  (status_code (fst (update_products 7 (with_json mallet) one_product)) =
     HTTP_404_NOT_FOUND <->
   rows one_product !! 7 = None).
Proof.
  split; [reflexivity|].
  apply (proj1 (proj2 (not_found_iff_absent 7 one_product)) (with_json mallet)).
  reflexivity.
Defined.

(** [unsupported_media_type] on requests without a Content-Type header. *)
Lemma unsupported_media_type_witness :
  content_type (with_query []) <> Some "application/json" /\
  snd (create_products (with_query []) one_product) = one_product /\
  snd (update_products 1 (with_query []) one_product) = one_product.
Proof.
  assert (Hct : content_type (with_query []) <> Some "application/json")
    by discriminate.
  split; [exact Hct|].
  exact (proj2 (proj2 (unsupported_media_type 1 (with_query []) one_product)) Hct).
Defined.

(** [list_by_name] on GET /products?name=Hammer. *)
Lemma list_by_name_witness :
  args_get (args (with_query [("name", "Hammer")])) "name" = Some "Hammer" /\
  "Hammer" <> "" /\
  exists products,
    list_products (with_query [("name", "Hammer")]) two_products =
      (Ok (mkResponse (JArr (serialize <$> products)) HTTP_200_OK []), two_products) /\
    NoDup products /\
    forall p, p ∈ products <-> stored two_products p /\ name p = "Hammer".
Proof.
  assert (Hne : "Hammer" <> "") by discriminate.
  split; [reflexivity|]. split; [exact Hne|].
  exact (list_by_name (with_query [("name", "Hammer")]) two_products "Hammer"
                      eq_refl Hne).
Defined.

(** [list_by_availability] on GET /products?available=T. *)
Lemma list_by_availability_witness :
  truthy (args_get (args (with_query [("available", "T")])) "name") = false /\
  truthy (args_get (args (with_query [("available", "T")])) "category") = false /\
  args_get (args (with_query [("available", "T")])) "available" = Some "T" /\
  "T" <> "" /\
  (is_available "T" = true <->
   lower "T" = "true" \/ lower "T" = "1" \/ lower "T" = "t") /\
  (is_available "yes" = false /\ is_available "FALSE" = false /\
   is_available "garbage" = false) /\
  exists products,
    list_products (with_query [("available", "T")]) two_products =
      (Ok (mkResponse (JArr (serialize <$> products)) HTTP_200_OK []), two_products) /\
    NoDup products /\
    forall p, p ∈ products <-> stored two_products p /\ available p = is_available "T".
Proof.
  assert (Hne : "T" <> "") by discriminate.
  split; [reflexivity|]. split; [reflexivity|]. split; [reflexivity|].
  split; [exact Hne|].
  exact (list_by_availability (with_query [("available", "T")]) two_products "T"
                              eq_refl eq_refl eq_refl Hne).
Defined.

(** [list_by_category] on GET /products?category=tools: the lower-case
    value selects the category TOOLS. *)
Lemma list_by_category_witness :
  truthy (args_get (args (with_query [("category", "tools")])) "name") = false /\
  args_get (args (with_query [("category", "tools")])) "category" = Some "tools" /\
  "tools" <> "" /\
  Category_getitem (upper "tools") = Ok TOOLS /\
  exists products,
    list_products (with_query [("category", "tools")]) two_products =
      (Ok (mkResponse (JArr (serialize <$> products)) HTTP_200_OK []), two_products) /\
    NoDup products /\
    (forall p, p ∈ products <-> stored two_products p /\ category p = TOOLS) /\
    (forall p, p ∈ products ->
       json_field (serialize p) "category" = Some (JStr (upper "tools"))).
Proof.
  assert (Hne : "tools" <> "") by discriminate.
  split; [reflexivity|]. split; [reflexivity|]. split; [exact Hne|].
  split; [reflexivity|].
  exact (proj2 (proj2 (list_by_category (with_query [("category", "tools")]) two_products
                                        "tools" eq_refl eq_refl)) Hne TOOLS eq_refl).
Defined.

(** C4 as stated fails at two values that name no member of the
    enumeration: the empty value, for which every product is listed, and
    "tools", which selects TOOLS.  Both answer 200 where the claim says
    400. *)
Lemma list_by_category_counterexample :
  (Category_getitem (Category := Category) "" = Raise (KeyError "") /\
   fst (list_products (with_query [("category", "")]) two_products) =
     fst (list_products (with_query []) two_products) /\
   status_code (fst (list_products (with_query [("category", "")]) two_products)) =
     HTTP_200_OK) /\
  (Category_getitem (Category := Category) "tools" = Raise (KeyError "tools") /\
   status_code (fst (list_products (with_query [("category", "tools")]) two_products)) =
     HTTP_200_OK).
Proof. vm_compute. done. Qed.

(** [list_filter_precedence] on GET /products?name=Hammer&category=toys: the
    name filter alone decides, and the category that names no member does
    not make the answer 400. *)
Lemma list_filter_precedence_witness :
  args_get (args (with_query [("name", "Hammer"); ("category", "toys")])) "name" =
    Some "Hammer" /\
  "Hammer" <> "" /\
  list_products (with_query [("name", "Hammer"); ("category", "toys")]) two_products =
    list_products (with_args (with_query [("name", "Hammer"); ("category", "toys")])
                             [("name", "Hammer")]) two_products /\
  status_code
    (fst (list_products (with_query [("name", "Hammer"); ("category", "toys")])
                        two_products)) = HTTP_200_OK.
Proof.
  assert (Hne : "Hammer" <> "") by discriminate.
  split; [reflexivity|]. split; [exact Hne|].
  exact (proj1 (list_filter_precedence
                  (with_query [("name", "Hammer"); ("category", "toys")]) two_products)
               "Hammer" eq_refl Hne).
Defined.

(** ** The handlers over a model layer that fails *)

Lemma Sample_enum_ok : enum_ok (Category := Category).
Proof. intros []; reflexivity. Defined.

Lemma empty_store_wf : store_wf empty_store.
Proof. intros i [x Hx]. cbn in Hx. by rewrite lookup_empty in Hx. Defined.

(** [create_products_with_errors]: [create] raises a [KeyError]. *)
Lemma create_products_with_errors_witness :
  content_type (with_json hammer) = Some "application/json" /\
  get_json (with_json hammer) = Ok hammer /\
  m_deserialize failing_models None hammer empty_store = (Ok hammer_product, empty_store) /\
  m_create failing_models hammer_product empty_store =
    (Raise (KeyError "id"), empty_store) /\
  create_products_with failing_models (with_json hammer) empty_store =
    (Raise (HTTPException HTTP_500_INTERNAL_SERVER_ERROR "'id'"), empty_store).
Proof.
  split; [reflexivity|]. split; [reflexivity|]. split; [reflexivity|].
  split; [reflexivity|].
  exact (proj1 (proj2 (proj2 (create_products_with_errors failing_models
                                (with_json hammer) empty_store eq_refl)))
               hammer hammer_product (KeyError "id") empty_store empty_store
               eq_refl eq_refl eq_refl).
Defined.

(** [update_products_with_checks]: PUT /products/7 on a table without it. *)
Lemma update_products_with_checks_witness :
  content_type (with_json mallet) = Some "application/json" /\
  m_find table_models 7 one_product = (Ok None, one_product) /\
  update_products_with table_models 7 (with_json mallet) one_product =
    (Raise (HTTPException HTTP_404_NOT_FOUND
              ("Product with id '" +:+ pretty 7 +:+ "' was not found.")), one_product).
Proof.
  split; [reflexivity|]. split; [reflexivity|].
  exact (proj1 (proj2 (update_products_with_checks table_models 7 (with_json mallet)
                         one_product))
               eq_refl one_product eq_refl).
Defined.

(** [update_products_with_errors]: [update] raises an [HTTPException] with
    the code 409, which is answered 500. *)
Lemma update_products_with_errors_witness :
  content_type (with_json mallet) = Some "application/json" /\
  m_find failing_models 1 one_product = (Ok (Some (of_row 1 hammer_row)), one_product) /\
  get_json (with_json mallet) = Ok mallet /\
  m_deserialize failing_models (Some (of_row 1 hammer_row)) mallet one_product =
    (Ok (set_id mallet_product 1), one_product) /\
  m_update failing_models (set_id (set_id mallet_product 1) 1) one_product =
    (Raise (HTTPException 409 "conflict"), one_product) /\
  update_products_with failing_models 1 (with_json mallet) one_product =
    (Raise (HTTPException HTTP_500_INTERNAL_SERVER_ERROR "409 Conflict: conflict"),
     one_product).
Proof.
  split; [reflexivity|]. split; [reflexivity|]. split; [reflexivity|].
  split; [reflexivity|]. split; [reflexivity|].
  exact (proj1 (proj2 (proj2 (update_products_with_errors failing_models 1
                                (with_json mallet) one_product (of_row 1 hammer_row)
                                one_product eq_refl eq_refl)))
               mallet (set_id mallet_product 1) (HTTPException 409 "conflict")
               one_product one_product eq_refl eq_refl eq_refl).
Defined.

(** [list_products_with_key_error]: the query of a category that exists
    raises [KeyError]. *)
Lemma list_products_with_key_error_witness :
  truthy (args_get (args (with_query [("category", "TOOLS")])) "name") = false /\
  args_get (args (with_query [("category", "TOOLS")])) "category" = Some "TOOLS" /\
  "TOOLS" <> "" /\
  Category_getitem (upper "TOOLS") = Ok TOOLS /\
  m_find_by_category failing_models TOOLS one_product =
    (Raise (KeyError "category"), one_product) /\
  list_products_with failing_models (with_query [("category", "TOOLS")]) one_product =
    (Raise (HTTPException HTTP_400_BAD_REQUEST ("Invalid category: " +:+ "TOOLS")),
     one_product).
Proof.
  assert (Hne : "TOOLS" <> "") by discriminate.
  split; [reflexivity|]. split; [reflexivity|]. split; [exact Hne|].
  split; [reflexivity|]. split; [reflexivity|].
  exact (proj1 (list_products_with_key_error failing_models
                  (with_query [("category", "TOOLS")]) one_product "TOOLS" TOOLS
                  eq_refl eq_refl Hne eq_refl)
               "category" one_product eq_refl).
Defined.

(** [list_products_with_category_case]: category=tools and category=TOOLS. *)
Lemma list_products_with_category_case_witness :
  "tools" <> "" /\ "TOOLS" <> "" /\ upper "tools" = upper "TOOLS" /\
  snd (list_products_with table_models
         (with_args (with_query []) [("category", "tools")]) two_products) =
  snd (list_products_with table_models
         (with_args (with_query []) [("category", "TOOLS")]) two_products) /\
  status_code (fst (list_products_with table_models
         (with_args (with_query []) [("category", "tools")]) two_products)) =
  status_code (fst (list_products_with table_models
         (with_args (with_query []) [("category", "TOOLS")]) two_products)) /\
  forall resp,
    fst (list_products_with table_models
           (with_args (with_query []) [("category", "tools")]) two_products) = Ok resp <->
    fst (list_products_with table_models
           (with_args (with_query []) [("category", "TOOLS")]) two_products) = Ok resp.
Proof.
  assert (Hne : "tools" <> "") by discriminate.
  assert (Hne' : "TOOLS" <> "") by discriminate.
  split; [exact Hne|]. split; [exact Hne'|]. split; [reflexivity|].
  exact (list_products_with_category_case table_models (with_query []) two_products
           "tools" "TOOLS" Hne Hne' eq_refl).
Defined.

(** [check_content_type_exact]: application/json with a charset. *)
Lemma check_content_type_exact_witness :
  "; charset=utf-8" <> "" /\
  content_type (mkRequest (Some "application/json; charset=utf-8") [] (Ok hammer)
                          "http://localhost/") =
    Some ("application/json" +:+ "; charset=utf-8") /\
  fst (check_content_type
         (mkRequest (Some "application/json; charset=utf-8") [] (Ok hammer)
                    "http://localhost/")
         "application/json" one_product) =
    Raise (HTTPException HTTP_415_UNSUPPORTED_MEDIA_TYPE
                         ("Content-Type must be " +:+ "application/json")).
Proof.
  assert (Hne : "; charset=utf-8" <> "") by discriminate.
  split; [exact Hne|]. split; [reflexivity|].
  exact (proj2 (proj2 (check_content_type_exact
                         (mkRequest (Some "application/json; charset=utf-8") [] (Ok hammer)
                                    "http://localhost/")
                         "application/json" one_product))
               "; charset=utf-8" Hne eq_refl).
Defined.

(** ** Requests in a row on the sample catalogue *)

(** [errors_do_not_write]: PUT /products/7 on a table without it. *)
Lemma errors_do_not_write_witness :
  400 <= status_code (fst (dispatch (PUT_product 7 (with_json mallet)) one_product)) /\
  snd (dispatch (PUT_product 7 (with_json mallet)) one_product) = one_product.
Proof.
  assert (H : 400 <= status_code
                       (fst (dispatch (PUT_product 7 (with_json mallet)) one_product)))
    by (vm_compute; discriminate).
  split; [exact H|].
  exact (errors_do_not_write (PUT_product 7 (with_json mallet)) one_product H).
Defined.

(** [create_then_delete]: the hammer, created and deleted. *)
Lemma create_then_delete_witness :
  store_wf empty_store /\
  create_products (with_json hammer) empty_store = (Ok hammer_created, one_product) /\
  exists i,
    response_id (body hammer_created) = Some i /\
    rows (snd (delete_products i one_product)) = rows empty_store /\
    status_code (fst (get_products i (snd (delete_products i one_product)))) =
      HTTP_404_NOT_FOUND.
Proof.
  split; [exact empty_store_wf|]. split; [reflexivity|].
  exact (create_then_delete (with_json hammer) empty_store hammer_created one_product
                            empty_store_wf eq_refl).
Defined.

(** [create_serialized_product]: the POST of a serialized hammer. *)
Lemma create_serialized_product_witness :
  enum_ok (Category := Category) /\
  content_type (with_json (serialize (of_row 999 hammer_row))) = Some "application/json" /\
  get_json (with_json (serialize (of_row 999 hammer_row))) =
    Ok (serialize (of_row 999 hammer_row)) /\
  deserialize (id (of_row 999 hammer_row)) (serialize (of_row 999 hammer_row)) =
    Ok (of_row 999 hammer_row) /\
  exists st',
    create_products (with_json (serialize (of_row 999 hammer_row))) empty_store =
      (Ok (mkResponse (serialize (set_id (of_row 999 hammer_row) (next_id empty_store)))
                      HTTP_201_CREATED
                      [("Location",
                        url_for_get_products
                          (with_json (serialize (of_row 999 hammer_row)))
                          (next_id empty_store))]), st') /\
    get_products (next_id empty_store) st' =
      (Ok (mkResponse (serialize (set_id (of_row 999 hammer_row) (next_id empty_store)))
                      HTTP_200_OK []), st').
Proof.
  split; [exact Sample_enum_ok|]. split; [reflexivity|]. split; [reflexivity|].
  exact (create_serialized_product (with_json (serialize (of_row 999 hammer_row)))
           empty_store (of_row 999 hammer_row) Sample_enum_ok eq_refl eq_refl).
Defined.


(** ** A body that is not JSON *)

(** C6: the request is a POST /products with Content-Type application/json
    whose body is not JSON.  [request.get_json()] raises [BadRequest] inside
    the [try] block, the [except Exception] clause catches it, and the
    answer is 500 with the text of the 400 for description, where the claim
    says 400; nothing is stored. *)
Theorem create_products_not_json_500 :
  content_type not_json = Some "application/json" /\
  get_json not_json = Raise BadRequest /\
  create_products not_json empty_store =
    (Raise (HTTPException HTTP_500_INTERNAL_SERVER_ERROR
              ("400 Bad Request: " +:+
               "The browser (or proxy) sent a request that this server could not understand.")),
     empty_store) /\
  status_code (fst (create_products not_json empty_store)) <> HTTP_400_BAD_REQUEST.
Proof.
  split; [reflexivity|]. split; [reflexivity|].
  rewrite (create_products_not_json not_json empty_store BadRequest eq_refl eq_refl).
  split; [reflexivity|]. cbn. discriminate.
Qed.
